(** * Interactive prompts of the phase2cli wizard (p0tion)

    A shallow embedding of [phase2cli/src/lib/prompts.ts]: the ceremony and
    circuit configuration builders and the selection prompts, together with
    the properties the specification states about them.

    Conventions of the embedding.
    - A JavaScript value that may be [undefined] is an [option]; [None] is
      [undefined].  Numbers answered at a prompt are integers ([Z]): the
      [prompts] library rounds the input of a [number] question.  Dates are
      the milliseconds of [Date.prototype.valueOf].
    - The relational operators follow JavaScript: an operand that converts
      to [NaN] ([undefined] does) makes every comparison false.
    - [showError (err, true)] prints and ends the process; a builder is a
      computation in the [run] monad, which either returns a value or has
      exited with an error.
    - The [prompts] library, the operator and the clock are the
      environment: a [Prompter] gives the answer of every question, and
      [scripted] is the prompter of an operator who types a sequence of
      submissions that the library validates one by one. *)

From Stdlib Require Import ZArith String Ascii List Bool Lia DecimalString.
Import ListNotations.

Local Open Scope string_scope.
Local Open Scope Z_scope.

(** ** JavaScript values and operators *)

Module JS.

(** [a < b], [a <= b], [a > b], [a >= b] on numbers that may be
    [undefined] or [NaN]. *)
Definition lt (a b : option Z) : bool :=
  match a, b with
  | Some x, Some y => x <? y
  | _, _ => false
  end.

Definition le (a b : option Z) : bool :=
  match a, b with
  | Some x, Some y => x <=? y
  | _, _ => false
  end.

Definition gt (a b : option Z) : bool := lt b a.

Definition ge (a b : option Z) : bool := le b a.

(** Truthiness, by the type of the value: a string is falsy when it is
    [undefined] or empty, an object (a [Date], a document) only when it is
    [undefined], a boolean when it is [undefined] or [false]. *)
Definition truthy_string (s : option string) : bool :=
  match s with
  | Some s => negb (String.eqb s "")
  | None => false
  end.

Definition truthy_object {A : Type} (o : option A) : bool :=
  match o with
  | Some _ => true
  | None => false
  end.

Definition truthy_bool (b : option bool) : bool :=
  match b with
  | Some true => true
  | _ => false
  end.

(** [Array.prototype.includes] on an array of strings. *)
Fixpoint includes (xs : list string) (x : string) : bool :=
  match xs with
  | [] => false
  | y :: ys => String.eqb y x || includes ys x
  end.

(** [Math.ceil (a / b)] for an integer [a] and a positive integer [b].  The
    quotient of the source is a double; below 2^53 its rounding never
    reaches the integer under it, so the ceiling is that of the exact
    quotient. *)
Definition ceil_div (a b : Z) : Z := - ((- a) / b).

(** [String (n)] for an integer. *)
Definition String_of (n : Z) : string := NilZero.string_of_int (Z.to_int n).

End JS.

(** ** Errors *)

Inductive GENERIC_ERRORS : Type :=
| GENERIC_DATA_INPUT
| GENERIC_CIRCUIT_SELECTION
| GENERIC_CEREMONY_SELECTION.

(** The outcome of running a builder: it returns, or the process has been
    ended by a fatal error. *)
Inductive run (A : Type) : Type :=
| Returns (a : A)
| Exits (err : GENERIC_ERRORS).

Arguments Returns {A} a.
Arguments Exits {A} err.

Definition bind {A B : Type} (m : run A) (k : A -> run B) : run B :=
  match m with
  | Returns a => k a
  | Exits err => Exits err
  end.

Notation "x <- m ;; k" := (bind m (fun x => k))
  (at level 61, m at next level, right associativity).
Notation "m ;;; k" := (bind m (fun _ => k))
  (at level 61, right associativity).

(** Modelled from the spec: [showError] of [errors.js], which is not among
    the sources.  "Every fatal condition immediately halts the entire
    process after printing a human-readable, styled error message": with
    the exit flag set nothing after the call runs; without it the message
    is printed and the caller goes on. *)
Definition showError (err : GENERIC_ERRORS) (doExit : bool) : run unit :=
  if doExit then Exits err else Returns tt.

(** ** The prompts library *)

(** What a [validate] hook returns: [true], or the message to display. *)
Inductive verdict : Type :=
| Valid
| Invalid (message : string).

Definition is_valid (v : verdict) : bool :=
  match v with
  | Valid => true
  | Invalid _ => false
  end.

Record Choice (V : Type) : Type := mkChoice {
  choice_title : string;
  choice_description : option string;
  choice_value : V
}.

Arguments mkChoice {V} _ _ _.
Arguments choice_title {V} _.
Arguments choice_description {V} _.
Arguments choice_value {V} _.

(** The answer of every question, by the question's [name].  A [None] is a
    question the operator cancelled.  The hook of a [date] question is run
    with the reading of [Date.now ()] at the moment of the submission. *)
Record Prompter : Type := mkPrompter {
  text : string -> (string -> verdict) -> option string;
  date : string -> (Z -> Z -> verdict) -> option Z;
  number : string -> (Z -> verdict) -> option Z;
  toggle : string -> option bool;
  select : forall V : Type, string -> list (Choice V) -> (V -> verdict) -> option V
}.

(** A series of questions given to [prompts] as an array ends at the first
    cancelled question: the later ones are not asked and stay [undefined]. *)
Definition after {A B : Type} (previous : option A) (ask : option B) : option B :=
  match previous with
  | Some _ => ask
  | None => None
  end.

(** *** A scripted operator *)

(** What the operator does at a question: submit a value (at a given time
    of the clock), or cancel. *)
Inductive event (A : Type) : Type :=
| Submit (now : Z) (a : A)
| Cancel.

Arguments Submit {A} now a.
Arguments Cancel {A}.

(** A rejected submission shows the message and leaves the question open;
    the first valid submission is the answer.  An operator with nothing
    more to type has cancelled. *)
Fixpoint answer {A : Type} (validate : Z -> A -> verdict) (evs : list (event A))
  : option A :=
  match evs with
  | [] => None
  | Cancel :: _ => None
  | Submit now a :: rest =>
      match validate now a with
      | Valid => Some a
      | Invalid _ => answer validate rest
      end
  end.

Record Operator : Type := mkOperator {
  types : string -> list (event string);
  picks_date : string -> list (event Z);
  enters : string -> list (event Z);
  toggles : string -> option bool;
  highlights : string -> list (event nat)
}.

(** A [select] question submits the highlighted entry of the list. *)
Definition answer_select {V : Type} (choices : list (Choice V))
    (validate : V -> verdict) (evs : list (event nat)) : option V :=
  let on_entry (_ : Z) (i : nat) :=
    match nth_error choices i with
    | Some c => validate (choice_value c)
    | None => Invalid "no such entry"
    end in
  match answer on_entry evs with
  | Some i => option_map choice_value (nth_error choices i)
  | None => None
  end.

Definition scripted (op : Operator) : Prompter :=
  {| text := fun name validate => answer (fun _ => validate) (types op name);
     date := fun name validate => answer validate (picks_date op name);
     number := fun name validate => answer (fun _ => validate) (enters op name);
     toggle := toggles op;
     select := fun V name choices validate =>
                 answer_select choices validate (highlights op name) |}.

(** ** Data model *)

Inductive CeremonyTimeoutType : Type :=
| DYNAMIC
| FIXED.

Definition CeremonyTimeoutType_eqb (a b : CeremonyTimeoutType) : bool :=
  match a, b with
  | DYNAMIC, DYNAMIC | FIXED, FIXED => true
  | _, _ => false
  end.

Module CeremonyInputData.
Record t : Type := mk {
  title : option string;
  description : option string;
  startDate : option Z;
  endDate : option Z;
  timeoutMechanismType : CeremonyTimeoutType;
  penalty : option Z
}.
End CeremonyInputData.

(** A property of an object literal: not written in the literal at all, or
    written with the value of a variable, which may be [undefined]. *)
Inductive property (A : Type) : Type :=
| Missing
| Holding (v : option A).

Arguments Missing {A}.
Arguments Holding {A} v.

(** [obj.p !== undefined]. *)
Definition is_set {A : Type} (p : property A) : bool :=
  match p with
  | Holding (Some _) => true
  | _ => false
  end.

(** ['p' in obj]. *)
Definition has_key {A : Type} (p : property A) : bool :=
  match p with
  | Holding _ => true
  | Missing => false
  end.

Module CircuitInputData.
Record t : Type := mk {
  description : option string;
  timeoutThreshold : property Z;
  timeoutMaxContributionWaitingTime : property Z
}.
End CircuitInputData.

Module CeremonyDocument.
Record t : Type := mk {
  title : string;
  description : string;
  endDate : Z
}.
End CeremonyDocument.

Module FirebaseDocumentInfo.
Record t : Type := mk {
  id : string;
  data : CeremonyDocument.t
}.
End FirebaseDocumentInfo.

(** The document of a circuit of a ceremony, as
    [askForCircuitSelectionFromFirebase] reads it. *)
Module CircuitDocument.
Record t : Type := mk {
  name : string;
  sequencePosition : Z;
  description : string
}.
End CircuitDocument.

Module CircuitDocumentInfo.
Record t : Type := mk {
  id : string;
  data : CircuitDocument.t
}.
End CircuitDocumentInfo.

(** What [askPowersOftau] returns. *)
Module PowersOftau.
Record t : Type := mk {
  powers : option Z
}.
End PowersOftau.

(** ** The helpers of utils.js, for running the prompts on examples *)

Definition is_digit (c : ascii) : bool :=
  ((48 <=? nat_of_ascii c) && (nat_of_ascii c <=? 57))%nat.

Fixpoint stem (s : string) : list ascii :=
  match s with
  | EmptyString => []
  | String c rest => if Ascii.eqb c "." then [] else c :: stem rest
  end.

(** The leading digits of [cs], least significant first, as a number. *)
Fixpoint digits_value (cs : list ascii) : option Z :=
  match cs with
  | [] => None
  | c :: rest =>
      if is_digit c then
        let d := Z.of_nat (nat_of_ascii c - 48) in
        match digits_value rest with
        | Some v => Some (d + 10 * v)
        | None => Some d
        end
      else None
  end.

(** Modelled from the spec: [extractPoTFromFilename] of [utils.js], which is
    not among the sources.  "Parses a numeric suffix encoding from a
    parameter filename": the digits that end the name before its extension,
    and [NaN] when there is none. *)
Definition extractPoTFromFilename_model (name : string) : option Z :=
  digits_value (rev (stem name)).

Definition fold_char (c : ascii) : ascii :=
  let n := nat_of_ascii c in
  if ((65 <=? n) && (n <=? 90))%nat then ascii_of_nat (n + 32)
  else if ((n =? 32) || (n =? 9) || (n =? 10) || (n =? 13))%nat then "-"%char
  else c.

(** Modelled from the spec: [extractPrefix] of [utils.js], which is not among
    the sources.  The "case-folded, whitespace-collapsed token form" of a
    title: letters in lower case, white space turned into dashes. *)
Fixpoint extractPrefix_model (title : string) : string :=
  match title with
  | EmptyString => EmptyString
  | String c rest => String (fold_char c) (extractPrefix_model rest)
  end.

(** The known-prefix check in the words of the specification: the
    normalized prefix of [title] is absent from [knownPrefixes]. *)
Definition isUniquePrefix (extractPrefix : string -> string) (title : string)
    (knownPrefixes : list string) : bool :=
  if in_dec string_dec (extractPrefix title) knownPrefixes then false else true.

(** An unstyled terminal. *)
Definition plain (s : string) : string := s.

(** *** Operators of the examples *)

Definition silent : Operator :=
  {| types := fun _ => [];
     picks_date := fun _ => [];
     enters := fun _ => [];
     toggles := fun _ => None;
     highlights := fun _ => [] |}.

(** The operator of a ceremony set up at time [now]: a title, a
    description, the two dates, the timeout mechanism and what is entered at
    the penalty question. *)
Definition ceremony_operator (now : Z) (title description : string)
    (startDate endDate : Z) (dynamic : bool) (penalty : list (event Z))
  : Operator :=
  {| types := fun name =>
       if String.eqb name "title" then [Submit now title]
       else if String.eqb name "description" then [Submit now description]
       else [];
     picks_date := fun name =>
       if String.eqb name "startDate" then [Submit now startDate]
       else if String.eqb name "endDate" then [Submit now endDate]
       else [];
     enters := fun name =>
       if String.eqb name "penalty" then penalty else [];
     toggles := fun _ => Some dynamic;
     highlights := fun _ => [] |}.

(** The operator of a circuit: a description and what is entered at the
    question of the timeout policy. *)
Definition circuit_operator (description : string) (entered : list (event Z))
  : Operator :=
  {| types := fun name =>
       if String.eqb name "description" then [Submit 0 description] else [];
     picks_date := fun _ => [];
     enters := fun name =>
       if String.eqb name "threshold" then entered
       else if String.eqb name "maxContributionWaitingTime" then entered
       else [];
     toggles := fun _ => None;
     highlights := fun _ => [] |}.

(** An operator who types [evs] at the text question [question] and
    cancels every other question. *)
Definition typist (question : string) (evs : list (event string)) : Operator :=
  {| types := fun name => if String.eqb name question then evs else [];
     picks_date := fun _ => [];
     enters := fun _ => [];
     toggles := fun _ => None;
     highlights := fun _ => [] |}.

(** An operator who enters [evs] at the number question [question] and
    cancels every other question. *)
Definition accountant (question : string) (evs : list (event Z)) : Operator :=
  {| types := fun _ => [];
     picks_date := fun _ => [];
     enters := fun name => if String.eqb name question then evs else [];
     toggles := fun _ => None;
     highlights := fun _ => [] |}.


(** An operator who submits entry [i] of every list. *)
Definition picker (i : nat) : Operator :=
  {| types := fun _ => [];
     picks_date := fun _ => [];
     enters := fun _ => [];
     toggles := fun _ => None;
     highlights := fun _ => [Submit 0 i] |}.

(** ** The builders and the selection prompts *)

Module Prompts.
Section Environment.

(** [constants.js] (the colours of [theme], the glyphs of [symbols]) and
    [utils.js] are not among the sources; the prompts use them through
    these names only. *)
Variable theme_red : string -> string.
Variable theme_magenta : string -> string.
Variable symbols_error : string.
Variable extractPrefix : string -> string.
(** The power parsed from a file name is a number, [None] when it is
    [NaN]. *)
Variable extractPoTFromFilename : string -> option Z.

(** The prompts library with its operator. *)
Variable P : Prompter.

Definition reject (text : string) : verdict :=
  Invalid (theme_red (symbols_error ++ text)).

(** *** askForConfirmation *)

(** A toggle named [confirmation], off at first; the answer is the
    [confirmation] field of what [prompts] returns. *)
Definition askForConfirmation (question active inactive : string) : option bool :=
  toggle P "confirmation".

(** *** askCeremonyInputData *)

(** The [validate] hooks of the questions, in the order of the source. *)
Definition validate_title (ceremoniesPrefixes : list string) (title : string)
  : verdict :=
  if (String.length title <=? 0)%nat then
    reject " You must provide a valid title for your ceremony!"
  else if JS.includes ceremoniesPrefixes (extractPrefix title) then
    reject " The title is already in use for another ceremony!"
  else Valid.

Definition validate_description (title : string) : verdict :=
  if (0 <? String.length title)%nat then Valid
  else reject " You must provide a valid description!".

Definition validate_startDate (Date_now : Z) (d : Z) : verdict :=
  if JS.gt (Some d) (Some Date_now) then Valid
  else reject " You cannot start a ceremony in the past!".

Definition validate_endDate (startDate : option Z) (_ : Z) (d : Z) : verdict :=
  if JS.gt (Some d) startDate then Valid
  else reject " You cannot close a ceremony before the opening!".

Definition validate_penalty (penalty : Z) : verdict :=
  if JS.lt (Some penalty) (Some 0) then
    reject " You must provide a penalty greater than zero"
  else Valid.

(** [ceremoniesPrefixes] is what [getCreatedCeremoniesPrefixes ()] read
    from the document store. *)
Definition askCeremonyInputData (ceremoniesPrefixes : list string)
  : run CeremonyInputData.t :=
  let title := text P "title" (validate_title ceremoniesPrefixes) in
  let description := after title (text P "description" validate_description) in
  let startDate := after description (date P "startDate" validate_startDate) in
  (if negb (JS.truthy_string title) || negb (JS.truthy_string description)
      || negb (JS.truthy_object startDate)
   then showError GENERIC_DATA_INPUT true else Returns tt) ;;;
  let endDate := date P "endDate" (validate_endDate startDate) in
  (if negb (JS.truthy_object endDate)
   then showError GENERIC_DATA_INPUT true else Returns tt) ;;;
  let timeoutMechanismType :=
  askForConfirmation
    "Choose which timeout mechanism you would like to use to penalize blocking contributors"
    "Dynamic" "Fixed" in
  let penalty := number P "penalty" validate_penalty in
  (if JS.lt penalty (Some 0)
   then showError GENERIC_DATA_INPUT true else Returns tt) ;;;
  Returns
    {| CeremonyInputData.title := title;
       CeremonyInputData.description := description;
       CeremonyInputData.startDate := startDate;
       CeremonyInputData.endDate := endDate;
       CeremonyInputData.timeoutMechanismType :=
         if JS.truthy_bool timeoutMechanismType then DYNAMIC else FIXED;
       CeremonyInputData.penalty := penalty |}.

(** *** askCircuitInputData *)

Definition validate_circuit_description (value : string) : verdict :=
  if (String.length value =? 0)%nat then
    reject " You must provide a valid description"
  else Valid.

Definition validate_threshold (threshold : Z) : verdict :=
  if JS.lt (Some threshold) (Some 0) || JS.gt (Some threshold) (Some 100) then
    reject " You must provide a threshold between 0 and 100"
  else Valid.

Definition validate_maxContributionWaitingTime (threshold : Z) : verdict :=
  if JS.le (Some threshold) (Some 0) then
    reject " You must provide a maximum contribution waiting time greater than zero"
  else Valid.

Definition askCircuitInputData (timeoutMechanismType : CeremonyTimeoutType)
  : run CircuitInputData.t :=
  let description := text P "description" validate_circuit_description in
  let timeoutThreshold0 : option Z := Some 0 in
  let timeoutMaxContributionWaitingTime0 : option Z := Some 0 in
  timeoutThreshold <-
    (if CeremonyTimeoutType_eqb timeoutMechanismType DYNAMIC then
       let threshold := number P "threshold" validate_threshold in
       (if JS.lt threshold (Some 0) || JS.gt threshold (Some 100)
        then showError GENERIC_DATA_INPUT true else Returns tt) ;;;
       Returns threshold
     else Returns timeoutThreshold0) ;;
  timeoutMaxContributionWaitingTime <-
    (if CeremonyTimeoutType_eqb timeoutMechanismType FIXED then
       let maxContributionWaitingTime :=
         number P "maxContributionWaitingTime"
           validate_maxContributionWaitingTime in
       (if JS.le maxContributionWaitingTime (Some 0)
        then showError GENERIC_DATA_INPUT true else Returns tt) ;;;
       Returns maxContributionWaitingTime
     else Returns timeoutMaxContributionWaitingTime0) ;;
  (if negb (JS.truthy_string description)
      || (CeremonyTimeoutType_eqb timeoutMechanismType DYNAMIC
          && JS.lt timeoutThreshold (Some 0))
      || (CeremonyTimeoutType_eqb timeoutMechanismType FIXED
          && JS.lt timeoutMaxContributionWaitingTime (Some 0))
   then showError GENERIC_DATA_INPUT true else Returns tt) ;;;
  Returns
    (if CeremonyTimeoutType_eqb timeoutMechanismType DYNAMIC then
       {| CircuitInputData.description := description;
          CircuitInputData.timeoutThreshold := Holding timeoutThreshold;
          CircuitInputData.timeoutMaxContributionWaitingTime := Missing |}
     else
       {| CircuitInputData.description := description;
          CircuitInputData.timeoutThreshold := Missing;
          CircuitInputData.timeoutMaxContributionWaitingTime :=
            Holding timeoutMaxContributionWaitingTime |}).

(** *** askForPtauSelectionFromLocalDir *)

(** The loop over the directory entries ([Dirent.name] of each). *)
Fixpoint ptau_choices (ptausDirents : list string) (suggestedPowers : Z)
  : list (Choice string) :=
  match ptausDirents with
  | [] => []
  | name :: rest =>
      let powers := extractPoTFromFilename name in
      if JS.ge powers (Some suggestedPowers)
      then mkChoice name None name :: ptau_choices rest suggestedPowers
      else ptau_choices rest suggestedPowers
  end.

(** The test of the loop, as a predicate on the names: the power of the
    file reaches the threshold. *)
Definition eligible (suggestedPowers : Z) (name : string) : bool :=
  JS.ge (extractPoTFromFilename name) (Some suggestedPowers).

Definition validate_ptau (suggestedPowers : Z) (value : string) : verdict :=
  if JS.ge (extractPoTFromFilename value) (Some suggestedPowers) then Valid
  else reject (" You must select a Powers of Tau file having an equal to or greater than "
               ++ JS.String_of suggestedPowers ++ " amount of powers").

Definition askForPtauSelectionFromLocalDir (ptausDirents : list string)
    (suggestedPowers : Z) : run (option string) :=
  let choices := ptau_choices ptausDirents suggestedPowers in
  let ptau := select P string "ptau" choices (validate_ptau suggestedPowers) in
  (if negb (JS.truthy_string ptau)
   then showError GENERIC_CIRCUIT_SELECTION true else Returns tt) ;;;
  Returns ptau.

(** *** askForCeremonySelection *)

Definition MS_PER_DAY : Z := 1000 * 60 * 60 * 24.

Definition daysLeft (now endDate : Z) : Z :=
  JS.ceil_div (Z.abs (now - endDate)) MS_PER_DAY.

Definition days_label (now endDate : Z) : string :=
  if now - endDate <? 0 then "days left" else "days gone since closing".

Definition ceremony_choice (now : Z) (ceremonyDoc : FirebaseDocumentInfo.t)
  : Choice FirebaseDocumentInfo.t :=
  let data := FirebaseDocumentInfo.data ceremonyDoc in
  mkChoice
    (CeremonyDocument.title data)
    (Some (CeremonyDocument.description data ++ " ("
           ++ theme_magenta (JS.String_of (daysLeft now (CeremonyDocument.endDate data)))
           ++ " " ++ days_label now (CeremonyDocument.endDate data) ++ ")"))
    ceremonyDoc.

(** The loop reads the clock once per document: [Date_now i] is the
    reading of the [i]-th call. *)
Fixpoint ceremony_choices (Date_now : nat -> Z) (i : nat)
    (openedCeremoniesDocs : list FirebaseDocumentInfo.t)
  : list (Choice FirebaseDocumentInfo.t) :=
  match openedCeremoniesDocs with
  | [] => []
  | ceremonyDoc :: rest =>
      ceremony_choice (Date_now i) ceremonyDoc :: ceremony_choices Date_now (S i) rest
  end.

Definition askForCeremonySelection (Date_now : nat -> Z)
    (openedCeremoniesDocs : list FirebaseDocumentInfo.t)
  : run (option FirebaseDocumentInfo.t) :=
  let choices := ceremony_choices Date_now 0 openedCeremoniesDocs in
  let ceremony := select P FirebaseDocumentInfo.t "ceremony" choices (fun _ => Valid) in
  (if negb (JS.truthy_object ceremony)
   then showError GENERIC_CEREMONY_SELECTION true else Returns tt) ;;;
  Returns ceremony.

(** *** askPowersOftau *)

Definition validate_powers (suggestedPowers : Z) (value : Z) : verdict :=
  if JS.ge (Some value) (Some suggestedPowers) then Valid
  else reject (" You must provide a value greater than or equal to "
               ++ JS.String_of suggestedPowers).

Definition askPowersOftau (suggestedPowers : Z) : run PowersOftau.t :=
  let powers := number P "powers" (validate_powers suggestedPowers) in
  (if JS.lt powers (Some suggestedPowers)
   then showError GENERIC_DATA_INPUT true else Returns tt) ;;;
  Returns {| PowersOftau.powers := powers |}.

(** *** askForCircuitSelectionFromLocalDir, askForZkeySelectionFromLocalDir *)

(** The two loops make one choice per directory entry, titled and valued
    with the name of the entry. *)
Definition askForCircuitSelectionFromLocalDir (circuitsDirents : list string)
  : run (option string) :=
  let choices := map (fun name => mkChoice name None name) circuitsDirents in
  let circuit := select P string "circuit" choices (fun _ => Valid) in
  (if negb (JS.truthy_string circuit)
   then showError GENERIC_CIRCUIT_SELECTION true else Returns tt) ;;;
  Returns circuit.

Definition askForZkeySelectionFromLocalDir (zkeysDirents : list string)
  : run (option string) :=
  let choices := map (fun name => mkChoice name None name) zkeysDirents in
  let zkey := select P string "zkey" choices (fun _ => Valid) in
  (if negb (JS.truthy_string zkey)
   then showError GENERIC_CIRCUIT_SELECTION true else Returns tt) ;;;
  Returns zkey.

(** *** askForCircuitSelectionFromFirebase *)

Definition circuit_choice (circuitDoc : CircuitDocumentInfo.t)
  : Choice CircuitDocumentInfo.t :=
  let data := CircuitDocumentInfo.data circuitDoc in
  mkChoice
    (CircuitDocument.name data)
    (Some ("(#" ++ theme_magenta (JS.String_of (CircuitDocument.sequencePosition data))
           ++ ") " ++ CircuitDocument.description data))
    circuitDoc.

Definition askForCircuitSelectionFromFirebase
    (circuitsDocs : list CircuitDocumentInfo.t)
  : run (option CircuitDocumentInfo.t) :=
  let choices := map circuit_choice circuitsDocs in
  let circuit := select P CircuitDocumentInfo.t "circuit" choices (fun _ => Valid) in
  (if negb (JS.truthy_object circuit)
   then showError GENERIC_CIRCUIT_SELECTION true else Returns tt) ;;;
  Returns circuit.

(** *** askForEntropyOrBeacon *)

Definition validate_entropyOrBeacon (askEntropy : bool) (title : string) : verdict :=
  if (0 <? String.length title)%nat then Valid
  else reject (" You must provide a valid value for the "
               ++ (if askEntropy then "entropy" else "beacon") ++ "!").

Definition askForEntropyOrBeacon (askEntropy : bool) : run (option string) :=
  let entropyOrBeacon :=
    text P "entropyOrBeacon" (validate_entropyOrBeacon askEntropy) in
  (if negb (JS.truthy_string entropyOrBeacon)
   then showError GENERIC_DATA_INPUT true else Returns tt) ;;;
  Returns entropyOrBeacon.

End Environment.
End Prompts.

(** ** Properties *)

(** *** JavaScript operators *)

Lemma includes_In (xs : list string) (x : string) :
  JS.includes xs x = true <-> In x xs.
Proof.
  induction xs as [|y ys IH]; simpl.
  - split; [discriminate | tauto].
  - rewrite orb_true_iff, String.eqb_eq, IH. tauto.
Qed.

Lemma truthy_string_Some (s : string) :
  JS.truthy_string (Some s) = true <-> s <> "".
Proof.
  unfold JS.truthy_string. rewrite negb_true_iff. apply String.eqb_neq.
Qed.

Lemma length_pos_nonempty (s : string) :
  (0 <? String.length s)%nat = true <-> s <> "".
Proof.
  destruct s; simpl; split; try discriminate; try congruence; reflexivity.
Qed.

(** No comparison holds of [undefined]. *)
Lemma undefined_compares_false (b : option Z) :
  JS.lt None b = false /\ JS.le None b = false /\
  JS.gt None b = false /\ JS.ge None b = false.
Proof.
  unfold JS.gt, JS.ge. now destruct b.
Qed.

(** *** The prompts library *)

(** An answered question holds a value that its hook accepted. *)
Lemma answer_valid {A : Type} (validate : Z -> A -> verdict)
    (evs : list (event A)) (a : A) :
  answer validate evs = Some a -> exists now, validate now a = Valid.
Proof.
  induction evs as [|[now x|] rest IH]; simpl; try discriminate.
  destruct (validate now x) eqn:E.
  - intros [= <-]. now exists now.
  - exact IH.
Qed.

(** A rejected submission leaves the question open. *)
Lemma answer_rejected {A : Type} (validate : Z -> A -> verdict) (now : Z)
    (a : A) (rest : list (event A)) :
  is_valid (validate now a) = false ->
  answer validate (Submit now a :: rest) = answer validate rest.
Proof.
  simpl. now destruct (validate now a).
Qed.

Lemma answer_select_listed {V : Type} (choices : list (Choice V))
    (validate : V -> verdict) (evs : list (event nat)) (v : V) :
  answer_select choices validate evs = Some v ->
  In v (map choice_value choices) /\ validate v = Valid.
Proof.
  unfold answer_select.
  match goal with |- context [answer ?f evs] => set (on_entry := f) end.
  destruct (answer on_entry evs) as [i|] eqn:E; [|discriminate].
  apply answer_valid in E. destruct E as [now E]. unfold on_entry in E.
  destruct (nth_error choices i) as [c|] eqn:N; [|discriminate].
  simpl. intros [= <-]. split; [|exact E].
  apply in_map. eapply nth_error_In; eauto.
Qed.

Lemma answer_select_nil {V : Type} (validate : V -> verdict)
    (evs : list (event nat)) :
  answer_select [] validate evs = None.
Proof.
  destruct (answer_select [] validate evs) as [v|] eqn:E; [|reflexivity].
  apply answer_select_listed in E. destruct E as [[] _].
Qed.

(** *** The ceremony builder *)

Section CeremonyBuilder.

Variable theme_red : string -> string.
Variable symbols_error : string.
Variable extractPrefix : string -> string.

Local Abbreviation reject := (Prompts.reject theme_red symbols_error).
Local Abbreviation validate_title := (Prompts.validate_title theme_red symbols_error extractPrefix).
Local Abbreviation validate_description := (Prompts.validate_description theme_red symbols_error).
Local Abbreviation validate_startDate := (Prompts.validate_startDate theme_red symbols_error).
Local Abbreviation validate_endDate := (Prompts.validate_endDate theme_red symbols_error).
Local Abbreviation validate_penalty := (Prompts.validate_penalty theme_red symbols_error).
Local Abbreviation askCeremonyInputData :=
  (Prompts.askCeremonyInputData theme_red symbols_error extractPrefix).

Lemma validate_title_valid (ceremoniesPrefixes : list string) (t : string) :
  validate_title ceremoniesPrefixes t = Valid <->
  t <> "" /\ ~ In (extractPrefix t) ceremoniesPrefixes.
Proof.
  unfold Prompts.validate_title. rewrite <- includes_In.
  destruct t as [|c t]; simpl.
  - split; [discriminate | intros [H _]; congruence].
  - destruct (JS.includes ceremoniesPrefixes (extractPrefix (String c t))).
    + split; [discriminate | intros [_ H]; now elim H].
    + split; [|reflexivity]. intros _. split; discriminate.
Qed.

Lemma validate_description_valid (d : string) :
  validate_description d = Valid <-> d <> "".
Proof.
  unfold Prompts.validate_description, Prompts.reject.
  rewrite <- length_pos_nonempty.
  destruct (0 <? String.length d)%nat; split; congruence.
Qed.

Lemma validate_startDate_valid (now d : Z) :
  validate_startDate now d = Valid <-> now < d.
Proof.
  unfold Prompts.validate_startDate, JS.gt, JS.lt.
  destruct (now <? d) eqn:E.
  - apply Z.ltb_lt in E. tauto.
  - apply Z.ltb_ge in E. split; [discriminate | lia].
Qed.

Lemma validate_endDate_valid (startDate now d : Z) :
  validate_endDate (Some startDate) now d = Valid <-> startDate < d.
Proof.
  unfold Prompts.validate_endDate, JS.gt, JS.lt.
  destruct (startDate <? d) eqn:E.
  - apply Z.ltb_lt in E. tauto.
  - apply Z.ltb_ge in E. split; [discriminate | lia].
Qed.

Lemma validate_penalty_valid (p : Z) :
  validate_penalty p = Valid <-> 0 <= p.
Proof.
  unfold Prompts.validate_penalty, JS.lt.
  destruct (p <? 0) eqn:E.
  - apply Z.ltb_lt in E. split; [discriminate | lia].
  - apply Z.ltb_ge in E. tauto.
Qed.

(** The library never hands a negative penalty to the builder. *)
Lemma scripted_penalty_passes (op : Operator) :
  JS.lt (number (scripted op) "penalty" validate_penalty) (Some 0) = false.
Proof.
  simpl. destruct (answer _ (enters op "penalty")) as [p|] eqn:E; [|reflexivity].
  apply answer_valid in E. destruct E as [_ E].
  apply validate_penalty_valid in E. simpl. now apply Z.ltb_ge.
Qed.

(** The builder, once its six answers are known. *)
Lemma askCeremonyInputData_answers (P : Prompter) (ceremoniesPrefixes : list string)
    (t d : string) (s e : Z) :
  text P "title" (validate_title ceremoniesPrefixes) = Some t ->
  text P "description" validate_description = Some d ->
  date P "startDate" validate_startDate = Some s ->
  date P "endDate" (validate_endDate (Some s)) = Some e ->
  t <> "" -> d <> "" ->
  askCeremonyInputData P ceremoniesPrefixes =
  if JS.lt (number P "penalty" validate_penalty) (Some 0)
  then Exits GENERIC_DATA_INPUT
  else Returns
         {| CeremonyInputData.title := Some t;
            CeremonyInputData.description := Some d;
            CeremonyInputData.startDate := Some s;
            CeremonyInputData.endDate := Some e;
            CeremonyInputData.timeoutMechanismType :=
              if JS.truthy_bool (toggle P "confirmation") then DYNAMIC else FIXED;
            CeremonyInputData.penalty := number P "penalty" validate_penalty |}.
Proof.
  intros Ht Hd Hs He Nt Nd.
  unfold Prompts.askCeremonyInputData.
  rewrite Ht, Hd. simpl after. rewrite Hs, He.
  apply truthy_string_Some in Nt, Nd. rewrite Nt, Nd. simpl.
  now destruct (JS.lt (number P "penalty" validate_penalty) (Some 0)).
Qed.

(** Every way out of the builder that is not a return is the same fatal
    error. *)
Lemma askCeremonyInputData_exits (P : Prompter) (ceremoniesPrefixes : list string)
    (err : GENERIC_ERRORS) :
  askCeremonyInputData P ceremoniesPrefixes = Exits err ->
  err = GENERIC_DATA_INPUT.
Proof.
  unfold Prompts.askCeremonyInputData, showError, bind.
  repeat match goal with
         | |- context [if ?b then _ else _] => destruct b
         end; congruence.
Qed.

(** What a returned value holds. *)
Lemma askCeremonyInputData_returns (P : Prompter) (ceremoniesPrefixes : list string)
    (r : CeremonyInputData.t) :
  askCeremonyInputData P ceremoniesPrefixes = Returns r ->
  exists t d s e,
    text P "title" (validate_title ceremoniesPrefixes) = Some t /\ t <> "" /\
    text P "description" validate_description = Some d /\ d <> "" /\
    date P "startDate" validate_startDate = Some s /\
    date P "endDate" (validate_endDate (Some s)) = Some e /\
    JS.lt (number P "penalty" validate_penalty) (Some 0) = false /\
    r = {| CeremonyInputData.title := Some t;
           CeremonyInputData.description := Some d;
           CeremonyInputData.startDate := Some s;
           CeremonyInputData.endDate := Some e;
           CeremonyInputData.timeoutMechanismType :=
             if JS.truthy_bool (toggle P "confirmation") then DYNAMIC else FIXED;
           CeremonyInputData.penalty := number P "penalty" validate_penalty |}.
Proof.
  unfold Prompts.askCeremonyInputData.
  destruct (text P "title" (validate_title ceremoniesPrefixes)) as [t|] eqn:Ht;
    [|discriminate].
  destruct (text P "description" validate_description) as [d|] eqn:Hd;
    [|simpl; rewrite orb_true_r; discriminate].
  simpl after.
  destruct (date P "startDate" validate_startDate) as [s|] eqn:Hs;
    [|simpl; rewrite !orb_true_r; discriminate].
  destruct (JS.truthy_string (Some t)) eqn:Nt; [|discriminate].
  destruct (JS.truthy_string (Some d)) eqn:Nd; [|discriminate].
  apply truthy_string_Some in Nt, Nd.
  destruct (date P "endDate" (validate_endDate (Some s))) as [e|] eqn:He;
    [|discriminate].
  simpl.
  destruct (JS.lt (number P "penalty" validate_penalty) (Some 0)) eqn:Hp;
    [discriminate|].
  simpl. intros [= <-]. exists t, d, s, e. repeat split; auto.
Qed.

(** A cancelled question among the first four ends the builder. *)
Lemma askCeremonyInputData_missing (P : Prompter) (ceremoniesPrefixes : list string) :
  text P "title" (validate_title ceremoniesPrefixes) = None \/
  text P "description" validate_description = None \/
  date P "startDate" validate_startDate = None \/
  date P "endDate" (validate_endDate (date P "startDate" validate_startDate)) = None ->
  askCeremonyInputData P ceremoniesPrefixes = Exits GENERIC_DATA_INPUT.
Proof.
  intros H.
  destruct (askCeremonyInputData P ceremoniesPrefixes) as [r|err] eqn:E.
  - apply askCeremonyInputData_returns in E.
    destruct E as (t & d & s & e & Ht & _ & Hd & _ & Hs & He & _).
    rewrite Hs in H. intuition congruence.
  - apply askCeremonyInputData_exits in E. now subst.
Qed.

(** C5: when the title, the description, the start date or the end date
    is absent after prompting, the builder calls [showError] with
    [GENERIC_DATA_INPUT] and the exit flag set, which ends the process;
    a value that is returned has the four fields present, so none is
    returned partially filled on those paths. *)
Theorem missing_answer_ends_the_process (P : Prompter)
    (ceremoniesPrefixes : list string) :
  (text P "title" (validate_title ceremoniesPrefixes) = None \/
   text P "description" validate_description = None \/
   date P "startDate" validate_startDate = None \/
   date P "endDate" (validate_endDate (date P "startDate" validate_startDate)) = None ->
   askCeremonyInputData P ceremoniesPrefixes = Exits GENERIC_DATA_INPUT)
  /\ (forall r : CeremonyInputData.t,
        askCeremonyInputData P ceremoniesPrefixes = Returns r ->
        JS.truthy_string (CeremonyInputData.title r) = true /\
        JS.truthy_string (CeremonyInputData.description r) = true /\
        JS.truthy_object (CeremonyInputData.startDate r) = true /\
        JS.truthy_object (CeremonyInputData.endDate r) = true).
Proof.
  split.
  - apply askCeremonyInputData_missing.
  - intros r E. apply askCeremonyInputData_returns in E.
    destruct E as (t & d & s & e & _ & Nt & _ & Nd & _ & _ & _ & ->). simpl.
    apply truthy_string_Some in Nt, Nd. auto.
Qed.

(** C9: an abandoned penalty question is not fatal.  The only check after
    the question is [penalty < 0], which [undefined] does not satisfy, and
    the builder returns a value whose [penalty] is [undefined]. *)
Theorem abandoned_penalty_is_returned (P : Prompter)
    (ceremoniesPrefixes : list string) (t d : string) (s e : Z) :
  text P "title" (validate_title ceremoniesPrefixes) = Some t ->
  text P "description" validate_description = Some d ->
  date P "startDate" validate_startDate = Some s ->
  date P "endDate" (validate_endDate (Some s)) = Some e ->
  t <> "" -> d <> "" ->
  number P "penalty" validate_penalty = None ->
  JS.lt (number P "penalty" validate_penalty) (Some 0) = false /\
  askCeremonyInputData P ceremoniesPrefixes =
  Returns
    {| CeremonyInputData.title := Some t;
       CeremonyInputData.description := Some d;
       CeremonyInputData.startDate := Some s;
       CeremonyInputData.endDate := Some e;
       CeremonyInputData.timeoutMechanismType :=
         if JS.truthy_bool (toggle P "confirmation") then DYNAMIC else FIXED;
       CeremonyInputData.penalty := None |}.
Proof.
  intros Ht Hd Hs He Nt Nd Hp.
  rewrite (askCeremonyInputData_answers P ceremoniesPrefixes t d s e) by assumption.
  rewrite Hp. split; reflexivity.
Qed.

(** C4: a penalty is accepted exactly when it is not negative.  Zero is
    accepted, although the message of the rejection asks for a penalty
    greater than zero; a negative penalty is rejected by the hook of the
    question, which stays open, and one that reached the builder all the
    same ends the process at the check after the question. *)
Theorem penalty_accepted_iff_nonnegative (p : Z) :
  (validate_penalty p = Valid <-> 0 <= p)
  /\ validate_penalty 0 = Valid
  /\ (p < 0 ->
      validate_penalty p = reject " You must provide a penalty greater than zero"
      /\ forall (now : Z) (rest : list (event Z)),
           answer (fun _ => validate_penalty) (Submit now p :: rest) =
           answer (fun _ => validate_penalty) rest)
  /\ (forall (P : Prompter) (ceremoniesPrefixes : list string),
        number P "penalty" validate_penalty = Some p ->
        (p < 0 -> askCeremonyInputData P ceremoniesPrefixes = Exits GENERIC_DATA_INPUT)
        /\ (forall r, askCeremonyInputData P ceremoniesPrefixes = Returns r ->
                      0 <= p /\ CeremonyInputData.penalty r = Some p))
  /\ (forall (P : Prompter) (ceremoniesPrefixes : list string) (t d : string) (s e : Z),
        text P "title" (validate_title ceremoniesPrefixes) = Some t ->
        text P "description" validate_description = Some d ->
        date P "startDate" validate_startDate = Some s ->
        date P "endDate" (validate_endDate (Some s)) = Some e ->
        t <> "" -> d <> "" ->
        number P "penalty" validate_penalty = Some p ->
        ((exists r, askCeremonyInputData P ceremoniesPrefixes = Returns r /\
                    CeremonyInputData.penalty r = Some p) <-> 0 <= p)).
Proof.
  split; [apply validate_penalty_valid|].
  split; [reflexivity|].
  split.
  { intros Hneg.
    assert (E : validate_penalty p =
                reject " You must provide a penalty greater than zero").
    { unfold Prompts.validate_penalty, JS.lt.
      now replace (p <? 0) with true by (symmetry; now apply Z.ltb_lt). }
    split; [exact E|]. intros now rest. apply answer_rejected. now rewrite E. }
  split.
  { intros P ceremoniesPrefixes Hp.
    assert (R : forall r, askCeremonyInputData P ceremoniesPrefixes = Returns r ->
                          0 <= p /\ CeremonyInputData.penalty r = Some p).
    { intros r E. apply askCeremonyInputData_returns in E.
      destruct E as (t & d & s & e & _ & _ & _ & _ & _ & _ & Hlt & ->).
      rewrite Hp in *. simpl in *. split; [now apply Z.ltb_ge|reflexivity]. }
    split; [|exact R]. intros Hneg.
    destruct (askCeremonyInputData P ceremoniesPrefixes) as [r|err] eqn:E.
    - destruct (R r eq_refl). lia.
    - apply askCeremonyInputData_exits in E. now subst. }
  intros P ceremoniesPrefixes t d s e Ht Hd Hs He Nt Nd Hp.
  rewrite (askCeremonyInputData_answers P ceremoniesPrefixes t d s e) by assumption.
  rewrite Hp. simpl JS.lt. destruct (p <? 0) eqn:E.
  - apply Z.ltb_lt in E. split; [intros (r & H & _); discriminate | lia].
  - apply Z.ltb_ge in E. split; [tauto|]. intros _. eexists. split; reflexivity.
Qed.

(** C6: the hook of the title question rejects a title as already in use
    exactly when the prefix extracted from it is among the known
    prefixes; an empty title is rejected before that, as not valid.  In
    the words of the specification: [isUniquePrefix] is false exactly
    when the extracted prefix is a member of the known prefixes, and it
    is the negation of the test of the hook. *)
Theorem title_rejected_iff_prefix_known (ceremoniesPrefixes : list string)
    (t : string) :
  (t = "" ->
   validate_title ceremoniesPrefixes t =
   reject " You must provide a valid title for your ceremony!")
  /\ (t <> "" ->
      (validate_title ceremoniesPrefixes t =
       reject " The title is already in use for another ceremony!"
       <-> In (extractPrefix t) ceremoniesPrefixes))
  /\ (validate_title ceremoniesPrefixes t = Valid <->
      t <> "" /\ ~ In (extractPrefix t) ceremoniesPrefixes)
  /\ (is_valid (validate_title ceremoniesPrefixes t) = false <->
      t = "" \/ In (extractPrefix t) ceremoniesPrefixes)
  /\ (isUniquePrefix extractPrefix t ceremoniesPrefixes = false <->
      In (extractPrefix t) ceremoniesPrefixes)
  /\ isUniquePrefix extractPrefix t ceremoniesPrefixes =
     negb (JS.includes ceremoniesPrefixes (extractPrefix t)).
Proof.
  assert (U : isUniquePrefix extractPrefix t ceremoniesPrefixes = false <->
              In (extractPrefix t) ceremoniesPrefixes).
  { unfold isUniquePrefix.
    destruct (in_dec string_dec (extractPrefix t) ceremoniesPrefixes);
      split; congruence. }
  split; [intros ->; reflexivity|].
  split.
  { intros Nt. rewrite <- includes_In. unfold Prompts.validate_title.
    destruct t as [|c t]; [congruence|]. simpl.
    destruct (JS.includes ceremoniesPrefixes (extractPrefix (String c t)));
      split; try reflexivity; discriminate. }
  split; [apply validate_title_valid|].
  split.
  { rewrite <- includes_In. unfold Prompts.validate_title, Prompts.reject.
    destruct t as [|c t]; simpl; [tauto|].
    destruct (JS.includes ceremoniesPrefixes (extractPrefix (String c t)));
      simpl; split; auto; intros [H|H]; congruence. }
  split; [exact U|].
  destruct (JS.includes ceremoniesPrefixes (extractPrefix t)) eqn:E; simpl.
  - apply U. now apply includes_In.
  - destruct (isUniquePrefix extractPrefix t ceremoniesPrefixes) eqn:F;
      [reflexivity|].
    pose proof (proj1 U eq_refl) as I. apply includes_In in I. congruence.
Qed.

(** C2: the hooks of the two date questions accept a pair of dates exactly
    when the start is after the time of the submission and the end after
    the start; an end equal to the start is rejected.  For an operator who
    submits one start date and one end date, the builder returns a value
    with these dates under the same condition, and ends the process
    otherwise. *)
Theorem dates_accepted_iff_ordered (now now' s e : Z) :
  (validate_startDate now s = Valid /\ validate_endDate (Some s) now' e = Valid
   <-> now < s /\ s < e)
  /\ validate_endDate (Some s) now' s <> Valid
  /\ (forall (op : Operator) (ceremoniesPrefixes : list string) (t d : string),
        text (scripted op) "title" (validate_title ceremoniesPrefixes) = Some t ->
        text (scripted op) "description" validate_description = Some d ->
        picks_date op "startDate" = [Submit now s] ->
        picks_date op "endDate" = [Submit now' e] ->
        ((exists r, askCeremonyInputData (scripted op) ceremoniesPrefixes = Returns r /\
                    CeremonyInputData.startDate r = Some s /\
                    CeremonyInputData.endDate r = Some e)
         <-> now < s /\ s < e)
        /\ (askCeremonyInputData (scripted op) ceremoniesPrefixes = Exits GENERIC_DATA_INPUT
            <-> ~ (now < s /\ s < e))).
Proof.
  split; [rewrite validate_startDate_valid, validate_endDate_valid; tauto|].
  split; [rewrite validate_endDate_valid; lia|].
  intros op ceremoniesPrefixes t d Ht Hd Hs He.
  assert (Nt : t <> "").
  { simpl in Ht. apply answer_valid in Ht. destruct Ht as [_ Ht].
    now apply validate_title_valid in Ht. }
  assert (Nd : d <> "").
  { simpl in Hd. apply answer_valid in Hd. destruct Hd as [_ Hd].
    now apply validate_description_valid in Hd. }
  assert (Ds : date (scripted op) "startDate" validate_startDate =
               if now <? s then Some s else None).
  { simpl. rewrite Hs. simpl. unfold Prompts.validate_startDate, JS.gt, JS.lt.
    now destruct (now <? s). }
  assert (De : date (scripted op) "endDate" (validate_endDate (Some s)) =
               if s <? e then Some e else None).
  { simpl. rewrite He. simpl. unfold Prompts.validate_endDate, JS.gt, JS.lt.
    now destruct (s <? e). }
  destruct (now <? s) eqn:Ls; [destruct (s <? e) eqn:Le|].
  - apply Z.ltb_lt in Ls, Le.
    rewrite (askCeremonyInputData_answers _ ceremoniesPrefixes t d s e)
      by assumption.
    rewrite scripted_penalty_passes. split.
    + split; [tauto|]. intros _. eexists. repeat split.
    + split; [discriminate | tauto].
  - apply Z.ltb_lt in Ls. apply Z.ltb_ge in Le.
    assert (X : askCeremonyInputData (scripted op) ceremoniesPrefixes =
                Exits GENERIC_DATA_INPUT).
    { apply askCeremonyInputData_missing. rewrite Ds. auto. }
    rewrite X. split.
    + split; [intros (r & H & _); discriminate | lia].
    + split; [lia | reflexivity].
  - apply Z.ltb_ge in Ls.
    assert (X : askCeremonyInputData (scripted op) ceremoniesPrefixes =
                Exits GENERIC_DATA_INPUT).
    { apply askCeremonyInputData_missing. auto. }
    rewrite X. split.
    + split; [intros (r & H & _); discriminate | lia].
    + split; [lia | reflexivity].
Qed.

End CeremonyBuilder.

(** *** The circuit builder *)

Section CircuitBuilder.

Variable theme_red : string -> string.
Variable symbols_error : string.

Local Abbreviation validate_circuit_description :=
  (Prompts.validate_circuit_description theme_red symbols_error).
Local Abbreviation validate_threshold :=
  (Prompts.validate_threshold theme_red symbols_error).
Local Abbreviation validate_maxContributionWaitingTime :=
  (Prompts.validate_maxContributionWaitingTime theme_red symbols_error).
Local Abbreviation askCircuitInputData :=
  (Prompts.askCircuitInputData theme_red symbols_error).


Lemma validate_maxContributionWaitingTime_valid (w : Z) :
  validate_maxContributionWaitingTime w = Valid <-> 0 < w.
Proof.
  unfold Prompts.validate_maxContributionWaitingTime, Prompts.reject, JS.le.
  destruct (w <=? 0) eqn:A; rewrite ?Z.leb_le, ?Z.leb_gt in *;
    split; try discriminate; try lia; reflexivity.
Qed.

(** The builder under the dynamic policy: the question of the waiting
    time is not asked, and the variable of the other policy keeps its
    initial zero. *)
Lemma askCircuitInputData_dynamic (P : Prompter) :
  askCircuitInputData P DYNAMIC =
  let description := text P "description" validate_circuit_description in
  let threshold := number P "threshold" validate_threshold in
  if JS.lt threshold (Some 0) || JS.gt threshold (Some 100)
  then Exits GENERIC_DATA_INPUT
  else if negb (JS.truthy_string description)
  then Exits GENERIC_DATA_INPUT
  else Returns
         {| CircuitInputData.description := description;
            CircuitInputData.timeoutThreshold := Holding threshold;
            CircuitInputData.timeoutMaxContributionWaitingTime := Missing |}.
Proof.
  unfold Prompts.askCircuitInputData. cbv zeta.
  generalize (text P "description" validate_circuit_description).
  generalize (number P "threshold" validate_threshold).
  intros threshold description.
  destruct threshold as [v|]; unfold JS.gt, JS.lt;
    [destruct (v <? 0) eqn:A; destruct (100 <? v) eqn:B|];
    destruct (JS.truthy_string description) eqn:T; cbn;
    rewrite ?A, ?B, ?T; reflexivity.
Qed.

(** The builder under the fixed policy. *)
Lemma askCircuitInputData_fixed (P : Prompter) :
  askCircuitInputData P FIXED =
  let description := text P "description" validate_circuit_description in
  let maxContributionWaitingTime :=
    number P "maxContributionWaitingTime" validate_maxContributionWaitingTime in
  if JS.le maxContributionWaitingTime (Some 0)
  then Exits GENERIC_DATA_INPUT
  else if negb (JS.truthy_string description)
  then Exits GENERIC_DATA_INPUT
  else Returns
         {| CircuitInputData.description := description;
            CircuitInputData.timeoutThreshold := Missing;
            CircuitInputData.timeoutMaxContributionWaitingTime :=
              Holding maxContributionWaitingTime |}.
Proof.
  unfold Prompts.askCircuitInputData. cbv zeta.
  generalize (text P "description" validate_circuit_description).
  generalize (number P "maxContributionWaitingTime"
                validate_maxContributionWaitingTime).
  intros maxContributionWaitingTime description.
  destruct maxContributionWaitingTime as [w|]; unfold JS.le, JS.lt;
    [destruct (w <=? 0) eqn:A; destruct (w <? 0) eqn:B|];
    destruct (JS.truthy_string description) eqn:T; cbn;
    rewrite ?A, ?B, ?T; try reflexivity;
    apply Z.leb_gt in A; apply Z.ltb_lt in B; lia.
Qed.

(** In a returned value the field of the policy of the ceremony is
    written and the field of the other policy is not; the written field
    holds what the question of the policy answered. *)
Lemma askCircuitInputData_policy_field (P : Prompter)
    (timeoutMechanismType : CeremonyTimeoutType) (r : CircuitInputData.t) :
  askCircuitInputData P timeoutMechanismType = Returns r ->
  match timeoutMechanismType with
  | DYNAMIC =>
      CircuitInputData.timeoutThreshold r =
      Holding (number P "threshold" validate_threshold) /\
      CircuitInputData.timeoutMaxContributionWaitingTime r = Missing
  | FIXED =>
      CircuitInputData.timeoutMaxContributionWaitingTime r =
      Holding (number P "maxContributionWaitingTime"
                 validate_maxContributionWaitingTime) /\
      CircuitInputData.timeoutThreshold r = Missing
  end.
Proof.
  destruct timeoutMechanismType.
  - rewrite askCircuitInputData_dynamic. cbv zeta.
    repeat match goal with
           | |- context [if ?b then _ else _] => destruct b
           end; try discriminate.
    intros [= <-]. split; reflexivity.
  - rewrite askCircuitInputData_fixed. cbv zeta.
    repeat match goal with
           | |- context [if ?b then _ else _] => destruct b
           end; try discriminate.
    intros [= <-]. split; reflexivity.
Qed.

(** The two keys exclude each other in every returned value. *)
Lemma askCircuitInputData_policy_keys (P : Prompter)
    (timeoutMechanismType : CeremonyTimeoutType) (r : CircuitInputData.t) :
  askCircuitInputData P timeoutMechanismType = Returns r ->
  has_key (CircuitInputData.timeoutThreshold r) =
  CeremonyTimeoutType_eqb timeoutMechanismType DYNAMIC /\
  has_key (CircuitInputData.timeoutMaxContributionWaitingTime r) =
  CeremonyTimeoutType_eqb timeoutMechanismType FIXED.
Proof.
  intros E. apply askCircuitInputData_policy_field in E.
  destruct timeoutMechanismType; destruct E as [-> ->]; split; reflexivity.
Qed.

(** C10: under the dynamic policy an abandoned threshold question is not
    fatal.  Neither the check after the question ([threshold < 0] or
    [threshold > 100]) nor the last one ([timeoutThreshold < 0]) holds of
    [undefined], and the builder returns a value whose [timeoutThreshold]
    is [undefined]. *)
Theorem abandoned_threshold_is_returned (P : Prompter) (d : string) :
  text P "description" validate_circuit_description = Some d ->
  d <> "" ->
  number P "threshold" validate_threshold = None ->
  JS.lt (number P "threshold" validate_threshold) (Some 0)
    || JS.gt (number P "threshold" validate_threshold) (Some 100) = false /\
  JS.lt (number P "threshold" validate_threshold) (Some 0) = false /\
  askCircuitInputData P DYNAMIC =
  Returns
    {| CircuitInputData.description := Some d;
       CircuitInputData.timeoutThreshold := Holding None;
       CircuitInputData.timeoutMaxContributionWaitingTime := Missing |}.
Proof.
  intros Hd Nd Ht. rewrite askCircuitInputData_dynamic, Hd, Ht. cbv zeta.
  apply truthy_string_Some in Nd. rewrite Nd. repeat split.
Qed.

(** C7: under the fixed policy, when the operator answers the question of
    the waiting time, the builder ends the process with
    [GENERIC_DATA_INPUT] unless the answer is greater than zero, and a
    returned value holds the answer, which is greater than zero, in
    [timeoutMaxContributionWaitingTime]. *)
Theorem fixed_waiting_time_is_positive (P : Prompter) (w : Z) :
  number P "maxContributionWaitingTime" validate_maxContributionWaitingTime = Some w ->
  (validate_maxContributionWaitingTime w = Valid <-> 0 < w)
  /\ (w <= 0 -> askCircuitInputData P FIXED = Exits GENERIC_DATA_INPUT)
  /\ (forall r : CircuitInputData.t,
        askCircuitInputData P FIXED = Returns r ->
        CircuitInputData.timeoutMaxContributionWaitingTime r = Holding (Some w)
        /\ 0 < w)
  /\ (forall d : string,
        text P "description" validate_circuit_description = Some d ->
        d <> "" -> 0 < w ->
        askCircuitInputData P FIXED =
        Returns
          {| CircuitInputData.description := Some d;
             CircuitInputData.timeoutThreshold := Missing;
             CircuitInputData.timeoutMaxContributionWaitingTime :=
               Holding (Some w) |}).
Proof.
  intros Hw. split; [apply validate_maxContributionWaitingTime_valid|].
  rewrite askCircuitInputData_fixed, Hw. cbv zeta. simpl JS.le.
  split; [|split].
  - intros Le. now replace (w <=? 0) with true by (symmetry; now apply Z.leb_le).
  - intros r. destruct (w <=? 0) eqn:A; [discriminate|]. apply Z.leb_gt in A.
    destruct (negb _); [discriminate|]. intros [= <-]. now split.
  - intros d Hd Nd Pw. rewrite Hd.
    replace (w <=? 0) with false by (symmetry; now apply Z.leb_gt).
    apply truthy_string_Some in Nd. now rewrite Nd.
Qed.

End CircuitBuilder.

(** *** The selection prompts *)

Lemma ceil_div_bounds (a b : Z) :
  0 < b -> (JS.ceil_div a b - 1) * b < a <= JS.ceil_div a b * b.
Proof.
  intros Hb. unfold JS.ceil_div.
  pose proof (Z.div_mod (- a) b ltac:(lia)) as E.
  pose proof (Z.mod_pos_bound (- a) b Hb) as B.
  nia.
Qed.

Lemma ceil_div_exact (n b : Z) : 0 < b -> JS.ceil_div (n * b) b = n.
Proof.
  intros Hb. unfold JS.ceil_div.
  replace (- (n * b)) with (- n * b) by ring.
  rewrite Z.div_mul by lia. lia.
Qed.

Section PtauSelection.

Variable theme_red : string -> string.
Variable symbols_error : string.
Variable extractPoTFromFilename : string -> option Z.

Local Abbreviation ptau_choices := (Prompts.ptau_choices extractPoTFromFilename).
Local Abbreviation validate_ptau :=
  (Prompts.validate_ptau theme_red symbols_error extractPoTFromFilename).
Local Abbreviation askForPtauSelectionFromLocalDir :=
  (Prompts.askForPtauSelectionFromLocalDir theme_red symbols_error
     extractPoTFromFilename).

Local Abbreviation eligible := (Prompts.eligible extractPoTFromFilename).

Lemma eligible_spec (suggestedPowers : Z) (name : string) :
  eligible suggestedPowers name = true <->
  exists powers, extractPoTFromFilename name = Some powers /\ suggestedPowers <= powers.
Proof.
  unfold Prompts.eligible, JS.ge, JS.le.
  destruct (extractPoTFromFilename name) as [p|].
  - rewrite Z.leb_le. split.
    + intros H. now exists p.
    + now intros (q & [= <-] & H).
  - split; [discriminate | now intros (q & H & _)].
Qed.

(** The loop keeps the eligible entries, in the order of the directory. *)
Lemma ptau_choices_filter (ptausDirents : list string) (suggestedPowers : Z) :
  ptau_choices ptausDirents suggestedPowers =
  map (fun name => mkChoice name None name)
      (filter (eligible suggestedPowers) ptausDirents).
Proof.
  induction ptausDirents as [|name rest IH]; [reflexivity|].
  cbn [Prompts.ptau_choices filter]. rewrite IH.
  unfold Prompts.eligible.
  now destruct (JS.ge (extractPoTFromFilename name) (Some suggestedPowers)).
Qed.

Lemma ptau_choices_values (ptausDirents : list string) (suggestedPowers : Z) :
  map choice_value (ptau_choices ptausDirents suggestedPowers) =
  filter (eligible suggestedPowers) ptausDirents.
Proof.
  rewrite ptau_choices_filter, map_map. simpl. apply map_id.
Qed.

(** The hook of the question accepts every entry of the list. *)
Lemma validate_ptau_listed (ptausDirents : list string) (suggestedPowers : Z)
    (v : string) :
  In v (map choice_value (ptau_choices ptausDirents suggestedPowers)) ->
  validate_ptau suggestedPowers v = Valid.
Proof.
  rewrite ptau_choices_values, filter_In. intros [_ E].
  unfold Prompts.validate_ptau. unfold Prompts.eligible in E. now rewrite E.
Qed.

(** C3: the list of choices built for the Powers of Tau files holds
    exactly the entries whose extracted power is at least
    [suggestedPowers], the others being left out; when the question
    yields no selection the process ends with
    [GENERIC_CIRCUIT_SELECTION], as it does whatever the operator types
    when no entry is eligible.  With powers 10, 12 and 14 extracted from
    pot10.ptau, pot12.ptau and pot14.ptau and 12 suggested, the choices
    are pot12.ptau and pot14.ptau. *)
Theorem ptau_choices_are_the_eligible_entries (ptausDirents : list string)
    (suggestedPowers : Z) :
  map choice_value (ptau_choices ptausDirents suggestedPowers) =
  filter (eligible suggestedPowers) ptausDirents
  /\ (forall name : string,
        In name (map choice_value (ptau_choices ptausDirents suggestedPowers)) <->
        In name ptausDirents /\
        exists powers, extractPoTFromFilename name = Some powers /\
                       suggestedPowers <= powers)
  /\ (forall c, In c (ptau_choices ptausDirents suggestedPowers) ->
                choice_title c = choice_value c)
  /\ (forall P : Prompter,
        select P string "ptau" (ptau_choices ptausDirents suggestedPowers)
          (validate_ptau suggestedPowers) = None ->
        askForPtauSelectionFromLocalDir P ptausDirents suggestedPowers =
        Exits GENERIC_CIRCUIT_SELECTION)
  /\ (forall op : Operator,
        ptau_choices ptausDirents suggestedPowers = [] ->
        askForPtauSelectionFromLocalDir (scripted op) ptausDirents suggestedPowers =
        Exits GENERIC_CIRCUIT_SELECTION)
  /\ (extractPoTFromFilename "pot10.ptau" = Some 10 ->
      extractPoTFromFilename "pot12.ptau" = Some 12 ->
      extractPoTFromFilename "pot14.ptau" = Some 14 ->
      map choice_value (ptau_choices ["pot10.ptau"; "pot12.ptau"; "pot14.ptau"] 12) =
      ["pot12.ptau"; "pot14.ptau"]).
Proof.
  split; [apply ptau_choices_values|].
  split.
  { intros name. rewrite ptau_choices_values, filter_In, eligible_spec. tauto. }
  split.
  { intros c. rewrite ptau_choices_filter, in_map_iff.
    intros (name & E & _). now subst c. }
  split.
  { intros P H. unfold Prompts.askForPtauSelectionFromLocalDir.
    cbv zeta. now rewrite H. }
  split.
  { intros op H. unfold Prompts.askForPtauSelectionFromLocalDir.
    cbv zeta. rewrite H. simpl select. now rewrite answer_select_nil. }
  intros H10 H12 H14. rewrite ptau_choices_values. simpl.
  unfold Prompts.eligible. now rewrite H10, H12, H14.
Qed.

End PtauSelection.

Section CeremonySelection.

Variable theme_magenta : string -> string.

Local Abbreviation ceremony_choice := (Prompts.ceremony_choice theme_magenta).
Local Abbreviation ceremony_choices := (Prompts.ceremony_choices theme_magenta).

(** The choices of the ceremonies: one per document, made with the
    reading of the clock of its turn of the loop. *)
Lemma ceremony_choices_nth (Date_now : nat -> Z)
    (openedCeremoniesDocs : list FirebaseDocumentInfo.t) (k i : nat) :
  nth_error (ceremony_choices Date_now k openedCeremoniesDocs) i =
  option_map (ceremony_choice (Date_now (k + i)%nat))
             (nth_error openedCeremoniesDocs i).
Proof.
  revert k i.
  induction openedCeremoniesDocs as [|doc rest IH]; intros k [|i]; simpl;
    try reflexivity.
  - now rewrite Nat.add_0_r.
  - rewrite IH. now rewrite Nat.add_succ_r.
Qed.

(** C8: the figure displayed for a ceremony is the distance between the
    current time and its [endDate] in whole days, rounded up, and the
    label after it is "days left" when the [endDate] is in the future and
    "days gone since closing" otherwise: three days ahead read
    "3 days left", three days past "3 days gone since closing".  Every
    entry of the list of [askForCeremonySelection] is made this way. *)
Theorem days_display (now : Z) (ceremonyDoc : FirebaseDocumentInfo.t) :
  let data := FirebaseDocumentInfo.data ceremonyDoc in
  let endDate := CeremonyDocument.endDate data in
  let shown := choice_description (ceremony_choice now ceremonyDoc) in
  (exists (days : Z) (label : string),
      shown = Some (CeremonyDocument.description data ++ " ("
                    ++ theme_magenta (JS.String_of days) ++ " " ++ label ++ ")")
      /\ (days - 1) * Prompts.MS_PER_DAY < Z.abs (now - endDate)
           <= days * Prompts.MS_PER_DAY
      /\ (now < endDate -> label = "days left")
      /\ (endDate <= now -> label = "days gone since closing"))
  /\ (endDate = now + 3 * Prompts.MS_PER_DAY ->
      shown = Some (CeremonyDocument.description data ++ " ("
                    ++ theme_magenta "3" ++ " days left)"))
  /\ (endDate = now - 3 * Prompts.MS_PER_DAY ->
      shown = Some (CeremonyDocument.description data ++ " ("
                    ++ theme_magenta "3" ++ " days gone since closing)"))
  /\ (forall (Date_now : nat -> Z) (docs : list FirebaseDocumentInfo.t) (i : nat),
        nth_error (ceremony_choices Date_now 0 docs) i =
        option_map (ceremony_choice (Date_now i)) (nth_error docs i)).
Proof.
  cbv zeta. split; [|split; [|split]].
  - exists (Prompts.daysLeft now
              (CeremonyDocument.endDate (FirebaseDocumentInfo.data ceremonyDoc))).
    exists (Prompts.days_label now
              (CeremonyDocument.endDate (FirebaseDocumentInfo.data ceremonyDoc))).
    split; [reflexivity|]. split.
    + apply ceil_div_bounds. reflexivity.
    + unfold Prompts.days_label. split; intros H.
      * now replace (_ <? 0) with true by (symmetry; apply Z.ltb_lt; lia).
      * now replace (_ <? 0) with false by (symmetry; apply Z.ltb_ge; lia).
  - intros E. simpl. rewrite E. unfold Prompts.daysLeft, Prompts.days_label.
    replace (now - (now + 3 * Prompts.MS_PER_DAY)) with (- (3 * Prompts.MS_PER_DAY))
      by ring.
    rewrite Z.abs_opp, Z.abs_eq by (vm_compute; discriminate).
    rewrite ceil_div_exact by reflexivity. reflexivity.
  - intros E. simpl. rewrite E. unfold Prompts.daysLeft, Prompts.days_label.
    replace (now - (now - 3 * Prompts.MS_PER_DAY)) with (3 * Prompts.MS_PER_DAY)
      by ring.
    rewrite Z.abs_eq by (vm_compute; discriminate).
    rewrite ceil_div_exact by reflexivity. reflexivity.
  - intros Date_now docs i. apply (ceremony_choices_nth Date_now docs 0 i).
Qed.

End CeremonySelection.

(** ** The prompts at work *)

(** The theorems above hold for every prompter, styling and helper; here
    they are applied to scripted operators on an unstyled terminal, with
    the helpers of [utils.js] as the specification describes them. *)

Lemma missing_answer_ends_the_process_witness :
  Prompts.askCeremonyInputData plain "x" extractPrefix_model (scripted silent) [] =
  Exits GENERIC_DATA_INPUT.
Proof.
  apply (proj1 (missing_answer_ends_the_process plain "x" extractPrefix_model
                  (scripted silent) [])).
  left. reflexivity.
Defined.

Lemma abandoned_penalty_is_returned_witness :
  let P := scripted (ceremony_operator 100 "My Ceremony" "A first ceremony"
                       200 300 true [Cancel]) in
  JS.lt (number P "penalty" (Prompts.validate_penalty plain "x")) (Some 0) = false /\
  Prompts.askCeremonyInputData plain "x" extractPrefix_model P ["another-ceremony"] =
  Returns
    {| CeremonyInputData.title := Some "My Ceremony";
       CeremonyInputData.description := Some "A first ceremony";
       CeremonyInputData.startDate := Some 200;
       CeremonyInputData.endDate := Some 300;
       CeremonyInputData.timeoutMechanismType := DYNAMIC;
       CeremonyInputData.penalty := None |}.
Proof.
  apply (abandoned_penalty_is_returned plain "x" extractPrefix_model
           (scripted (ceremony_operator 100 "My Ceremony" "A first ceremony"
                        200 300 true [Cancel]))
           ["another-ceremony"] "My Ceremony" "A first ceremony" 200 300);
    try reflexivity; discriminate.
Defined.

Lemma penalty_accepted_iff_nonnegative_witness :
  Prompts.validate_penalty plain "x" (-5) =
  Invalid "x You must provide a penalty greater than zero"
  /\ answer (fun _ => Prompts.validate_penalty plain "x") [Submit 0 (-5); Submit 1 0] =
     Some 0.
Proof.
  destruct (penalty_accepted_iff_nonnegative plain "x" extractPrefix_model (-5))
    as (_ & _ & H & _).
  destruct (H ltac:(lia)) as [E R]. split; [exact E|].
  rewrite R. reflexivity.
Defined.

Lemma title_rejected_iff_prefix_known_witness :
  Prompts.validate_title plain "x" extractPrefix_model ["my-ceremony"] "My Ceremony" =
  Invalid "x The title is already in use for another ceremony!"
  /\ Prompts.validate_title plain "x" extractPrefix_model ["my-ceremony"]
       "Another Ceremony" = Valid.
Proof.
  split.
  - apply (proj1 (proj2 (title_rejected_iff_prefix_known plain "x"
                           extractPrefix_model ["my-ceremony"] "My Ceremony"))).
    + discriminate.
    + left. reflexivity.
  - apply (proj1 (proj2 (proj2 (title_rejected_iff_prefix_known plain "x"
                                  extractPrefix_model ["my-ceremony"]
                                  "Another Ceremony")))).
    split; [discriminate|]. intros [H|[]]. discriminate.
Defined.

Lemma dates_accepted_iff_ordered_witness :
  Prompts.validate_startDate plain "x" 100 200 = Valid
  /\ Prompts.validate_endDate plain "x" (Some 200) 150 300 = Valid
  /\ Prompts.validate_endDate plain "x" (Some 200) 150 200 <> Valid.
Proof.
  split; [|split].
  - apply (proj2 (proj1 (dates_accepted_iff_ordered plain "x" extractPrefix_model
                           100 150 200 300)) ltac:(lia)).
  - apply (proj2 (proj1 (dates_accepted_iff_ordered plain "x" extractPrefix_model
                           100 150 200 300)) ltac:(lia)).
  - apply (proj1 (proj2 (dates_accepted_iff_ordered plain "x" extractPrefix_model
                           100 150 200 300))).
Defined.

Lemma abandoned_threshold_is_returned_witness :
  let P := scripted (circuit_operator "A first circuit" [Cancel]) in
  JS.lt (number P "threshold" (Prompts.validate_threshold plain "x")) (Some 0)
    || JS.gt (number P "threshold" (Prompts.validate_threshold plain "x")) (Some 100)
  = false /\
  JS.lt (number P "threshold" (Prompts.validate_threshold plain "x")) (Some 0) = false /\
  Prompts.askCircuitInputData plain "x" P DYNAMIC =
  Returns
    {| CircuitInputData.description := Some "A first circuit";
       CircuitInputData.timeoutThreshold := Holding None;
       CircuitInputData.timeoutMaxContributionWaitingTime := Missing |}.
Proof.
  apply (abandoned_threshold_is_returned plain "x"
           (scripted (circuit_operator "A first circuit" [Cancel]))
           "A first circuit"); try reflexivity; discriminate.
Defined.

Lemma fixed_waiting_time_is_positive_witness :
  Prompts.askCircuitInputData plain "x"
    (scripted (circuit_operator "A first circuit" [Submit 0 0; Submit 1 7])) FIXED =
  Returns
    {| CircuitInputData.description := Some "A first circuit";
       CircuitInputData.timeoutThreshold := Missing;
       CircuitInputData.timeoutMaxContributionWaitingTime := Holding (Some 7) |}.
Proof.
  apply (fixed_waiting_time_is_positive plain "x"
           (scripted (circuit_operator "A first circuit" [Submit 0 0; Submit 1 7]))
           7 eq_refl);
    [reflexivity | discriminate | lia].
Defined.

Lemma ptau_choices_are_the_eligible_entries_witness :
  map choice_value
    (Prompts.ptau_choices extractPoTFromFilename_model
       ["pot10.ptau"; "pot12.ptau"; "pot14.ptau"] 12) =
  ["pot12.ptau"; "pot14.ptau"]
  /\ Prompts.askForPtauSelectionFromLocalDir plain "x" extractPoTFromFilename_model
       (scripted (picker 0)) ["pot10.ptau"] 12 = Exits GENERIC_CIRCUIT_SELECTION.
Proof.
  split.
  - apply (ptau_choices_are_the_eligible_entries plain "x"
             extractPoTFromFilename_model [] 12); reflexivity.
  - apply (ptau_choices_are_the_eligible_entries plain "x"
             extractPoTFromFilename_model ["pot10.ptau"] 12). reflexivity.
Defined.

Lemma days_display_witness :
  choice_description
    (Prompts.ceremony_choice plain 1000
       (FirebaseDocumentInfo.mk "c1"
          (CeremonyDocument.mk "My Ceremony" "A first ceremony"
             (1000 + 3 * Prompts.MS_PER_DAY)))) =
  Some "A first ceremony (3 days left)".
Proof.
  apply (days_display plain 1000
           (FirebaseDocumentInfo.mk "c1"
              (CeremonyDocument.mk "My Ceremony" "A first ceremony"
                 (1000 + 3 * Prompts.MS_PER_DAY)))).
  reflexivity.
Defined.

(** C1: under the dynamic policy, an operator who describes the circuit and
    then cancels the threshold question gets a value back in which neither
    policy field is set: [timeoutThreshold] is written with [undefined] and
    [timeoutMaxContributionWaitingTime] is not written.  The invariant of
    the specification, that exactly one of the two is populated and never
    neither, fails on this call. *)
Theorem cancelled_threshold_sets_no_policy_field :
  exists r : CircuitInputData.t,
    Prompts.askCircuitInputData plain "x"
      (scripted (circuit_operator "A first circuit" [Cancel])) DYNAMIC = Returns r
    /\ CircuitInputData.timeoutThreshold r = Holding None
    /\ is_set (CircuitInputData.timeoutThreshold r) = false
    /\ is_set (CircuitInputData.timeoutMaxContributionWaitingTime r) = false.
Proof.
  eexists. split; [reflexivity|]. repeat split.
Qed.

(** ** Further properties of the prompts *)


(** Two hooks that accept the same submissions give the same answer. *)
Lemma answer_same_validity {A : Type} (v1 v2 : Z -> A -> verdict)
    (evs : list (event A)) :
  (forall now a, is_valid (v1 now a) = is_valid (v2 now a)) ->
  answer v1 evs = answer v2 evs.
Proof.
  intros H. induction evs as [|[now x|] rest IH]; simpl; try reflexivity.
  specialize (H now x).
  destruct (v1 now x), (v2 now x); simpl in H; try discriminate;
    [reflexivity | exact IH].
Qed.


Section CeremonyBuilderFurther.

Variable theme_red : string -> string.
Variable symbols_error : string.
Variable extractPrefix : string -> string.

Local Abbreviation validate_title := (Prompts.validate_title theme_red symbols_error extractPrefix).
Local Abbreviation validate_description := (Prompts.validate_description theme_red symbols_error).
Local Abbreviation validate_startDate := (Prompts.validate_startDate theme_red symbols_error).
Local Abbreviation validate_endDate := (Prompts.validate_endDate theme_red symbols_error).
Local Abbreviation validate_penalty := (Prompts.validate_penalty theme_red symbols_error).
Local Abbreviation askCeremonyInputData :=
  (Prompts.askCeremonyInputData theme_red symbols_error extractPrefix).


(** X2: under the hooks of the library the builder ends the process only
    when one of the first four questions was cancelled: it returns exactly
    when the title, the description and the two dates are answered, and the
    check of the penalty after its question never fires. *)
Theorem scripted_ceremony_returns_iff_answered (op : Operator)
    (ceremoniesPrefixes : list string) :
  (exists r, askCeremonyInputData (scripted op) ceremoniesPrefixes = Returns r) <->
  (exists (t d : string) (s e : Z),
      text (scripted op) "title" (validate_title ceremoniesPrefixes) = Some t /\
      text (scripted op) "description" validate_description = Some d /\
      date (scripted op) "startDate" validate_startDate = Some s /\
      date (scripted op) "endDate" (validate_endDate (Some s)) = Some e).
Proof.
  split.
  - intros [r E]. apply askCeremonyInputData_returns in E.
    destruct E as (t & d & s & e & Ht & _ & Hd & _ & Hs & He & _).
    exists t, d, s, e. auto.
  - intros (t & d & s & e & Ht & Hd & Hs & He).
    assert (Nt : t <> "").
    { simpl in Ht. apply answer_valid in Ht. destruct Ht as [_ Ht].
      now apply validate_title_valid in Ht. }
    assert (Nd : d <> "").
    { simpl in Hd. apply answer_valid in Hd. destruct Hd as [_ Hd].
      now apply validate_description_valid in Hd. }
    rewrite (askCeremonyInputData_answers theme_red symbols_error extractPrefix
               (scripted op) ceremoniesPrefixes t d s e Ht Hd Hs He Nt Nd).
    rewrite (scripted_penalty_passes theme_red symbols_error extractPrefix).
    eexists. reflexivity.
Qed.


(** X4: the known prefixes are used as a set.  The verdict on a title is
    the same for two lists with the same members, a title rejected against
    some prefixes stays rejected against more of them, and once the prefix
    of a title is known every title with the same prefix is rejected, that
    title included. *)
Theorem known_prefixes_act_as_a_set (ps1 ps2 : list string) (t t' : string) :
  ((forall x, In x ps1 <-> In x ps2) ->
   validate_title ps1 t = validate_title ps2 t)
  /\ (validate_title ps1 t <> Valid -> validate_title (ps1 ++ ps2) t <> Valid)
  /\ (extractPrefix t' = extractPrefix t ->
      validate_title (extractPrefix t :: ps1) t' <> Valid).
Proof.
  split; [|split].
  - intros H. unfold Prompts.validate_title.
    destruct (String.length t <=? 0)%nat; [reflexivity|].
    assert (E : JS.includes ps1 (extractPrefix t) = JS.includes ps2 (extractPrefix t)).
    { destruct (JS.includes ps1 (extractPrefix t)) eqn:A;
        destruct (JS.includes ps2 (extractPrefix t)) eqn:B; try reflexivity.
      - apply includes_In, H, includes_In in A. congruence.
      - apply includes_In, H, includes_In in B. congruence. }
    now rewrite E.
  - rewrite !validate_title_valid. intros H [Nt Ni]. apply H.
    split; [exact Nt|]. intros I. apply Ni, in_or_app. now left.
  - intros E. rewrite validate_title_valid. intros [_ Ni]. apply Ni.
    left. now symmetry.
Qed.

End CeremonyBuilderFurther.

(** The check after the threshold question holds of the answers out of
    [0, 100], and of these only. *)
Lemma threshold_out_of_bounds (o : option Z) :
  JS.lt o (Some 0) || JS.gt o (Some 100) = true <->
  exists v, o = Some v /\ (v < 0 \/ 100 < v).
Proof.
  destruct o as [v|]; unfold JS.gt, JS.lt.
  - rewrite orb_true_iff, !Z.ltb_lt. split.
    + intros H. now exists v.
    + now intros (w & [= <-] & H).
  - split; [discriminate | now intros (v & H & _)].
Qed.

(** The check after the waiting-time question holds of the answers that
    are not positive, and of these only. *)
Lemma waiting_time_not_positive (o : option Z) :
  JS.le o (Some 0) = true <-> exists w, o = Some w /\ w <= 0.
Proof.
  destruct o as [w|]; unfold JS.le.
  - rewrite Z.leb_le. split.
    + intros H. now exists w.
    + now intros (x & [= <-] & H).
  - split; [discriminate | now intros (w & H & _)].
Qed.

Section CircuitBuilderFurther.

Variable theme_red : string -> string.
Variable symbols_error : string.

Local Abbreviation validate_circuit_description :=
  (Prompts.validate_circuit_description theme_red symbols_error).
Local Abbreviation validate_threshold :=
  (Prompts.validate_threshold theme_red symbols_error).
Local Abbreviation validate_maxContributionWaitingTime :=
  (Prompts.validate_maxContributionWaitingTime theme_red symbols_error).
Local Abbreviation askCircuitInputData :=
  (Prompts.askCircuitInputData theme_red symbols_error).



(** The builder has one error. *)
Lemma askCircuitInputData_exits (P : Prompter)
    (timeoutMechanismType : CeremonyTimeoutType) (err : GENERIC_ERRORS) :
  askCircuitInputData P timeoutMechanismType = Exits err ->
  err = GENERIC_DATA_INPUT.
Proof.
  destruct timeoutMechanismType.
  - rewrite askCircuitInputData_dynamic. cbv zeta.
    repeat match goal with
           | |- context [if ?b then _ else _] => destruct b
           end; congruence.
  - rewrite askCircuitInputData_fixed. cbv zeta.
    repeat match goal with
           | |- context [if ?b then _ else _] => destruct b
           end; congruence.
Qed.

(** When the builder ends the process under each policy. *)
Lemma askCircuitInputData_dynamic_exits (P : Prompter) :
  (exists err, askCircuitInputData P DYNAMIC = Exits err) <->
  JS.truthy_string (text P "description" validate_circuit_description) = false
  \/ exists v, number P "threshold" validate_threshold = Some v /\
               (v < 0 \/ 100 < v).
Proof.
  rewrite askCircuitInputData_dynamic, <- threshold_out_of_bounds. cbv zeta.
  destruct (JS.lt _ _ || JS.gt _ _);
    destruct (JS.truthy_string (text P "description" validate_circuit_description));
    simpl; split; eauto; intros H; try (destruct H as [err H]; discriminate);
    destruct H; discriminate.
Qed.

Lemma askCircuitInputData_fixed_exits (P : Prompter) :
  (exists err, askCircuitInputData P FIXED = Exits err) <->
  JS.truthy_string (text P "description" validate_circuit_description) = false
  \/ exists w, number P "maxContributionWaitingTime"
                 validate_maxContributionWaitingTime = Some w /\ w <= 0.
Proof.
  rewrite askCircuitInputData_fixed, <- waiting_time_not_positive. cbv zeta.
  destruct (JS.le _ _);
    destruct (JS.truthy_string (text P "description" validate_circuit_description));
    simpl; split; eauto; intros H; try (destruct H as [err H]; discriminate);
    destruct H; discriminate.
Qed.

(** X6: the circuit builder ends the process with [GENERIC_DATA_INPUT] and
    nothing else, and exactly when the description is cancelled or empty
    or the answer to the question of the policy is out of its bound.  The
    last re-validation of the numbers adds no case to the checks made
    after each question. *)
Theorem circuit_builder_exits_iff (P : Prompter) :
  (forall (timeoutMechanismType : CeremonyTimeoutType) (err : GENERIC_ERRORS),
      askCircuitInputData P timeoutMechanismType = Exits err ->
      err = GENERIC_DATA_INPUT)
  /\ ((exists err, askCircuitInputData P DYNAMIC = Exits err) <->
      JS.truthy_string (text P "description" validate_circuit_description) = false
      \/ exists v, number P "threshold" validate_threshold = Some v /\
                   (v < 0 \/ 100 < v))
  /\ ((exists err, askCircuitInputData P FIXED = Exits err) <->
      JS.truthy_string (text P "description" validate_circuit_description) = false
      \/ exists w, number P "maxContributionWaitingTime"
                     validate_maxContributionWaitingTime = Some w /\ w <= 0).
Proof.
  split; [|split].
  - apply askCircuitInputData_exits.
  - apply askCircuitInputData_dynamic_exits.
  - apply askCircuitInputData_fixed_exits.
Qed.



End CircuitBuilderFurther.

(** *** Selections and the other questions *)

(** Submitting a listed entry that the hook accepts selects its value. *)
Lemma answer_select_pick {V : Type} (choices : list (Choice V))
    (validate : V -> verdict) (now : Z) (i : nat) (rest : list (event nat))
    (c : Choice V) :
  nth_error choices i = Some c ->
  validate (choice_value c) = Valid ->
  answer_select choices validate (Submit now i :: rest) = Some (choice_value c).
Proof.
  intros N V0. unfold answer_select. simpl. rewrite N, V0. simpl.
  now rewrite N.
Qed.

(** Two hooks that agree on the listed entries select the same. *)
Lemma answer_select_same_validity {V : Type} (choices : list (Choice V))
    (v1 v2 : V -> verdict) (evs : list (event nat)) :
  (forall c, In c choices ->
             is_valid (v1 (choice_value c)) = is_valid (v2 (choice_value c))) ->
  answer_select choices v1 evs = answer_select choices v2 evs.
Proof.
  intros H. unfold answer_select.
  match goal with
  | |- match answer ?f evs with _ => _ end = match answer ?g evs with _ => _ end =>
      rewrite (answer_same_validity f g evs)
  end; [reflexivity|].
  intros _ i. destruct (nth_error choices i) as [c|] eqn:N; [|reflexivity].
  apply H. eapply nth_error_In; eauto.
Qed.

Section PowersOftau.

Variable theme_red : string -> string.
Variable symbols_error : string.

Local Abbreviation validate_powers := (Prompts.validate_powers theme_red symbols_error).
Local Abbreviation askPowersOftau := (Prompts.askPowersOftau theme_red symbols_error).

Lemma validate_powers_valid (suggestedPowers value : Z) :
  validate_powers suggestedPowers value = Valid <-> suggestedPowers <= value.
Proof.
  unfold Prompts.validate_powers, Prompts.reject, JS.ge, JS.le.
  destruct (suggestedPowers <=? value) eqn:E;
    rewrite ?Z.leb_le, ?Z.leb_gt in E; split; try discriminate; try lia;
    reflexivity.
Qed.

(** X9: [askPowersOftau] never returns an amount of powers below the
    suggested one: an answer under it ends the process with
    [GENERIC_DATA_INPUT] even when it passed the question, and an answer
    that reaches it is returned.  A cancelled question is not caught: it
    returns [powers] undefined. *)
Theorem powers_never_below_suggested (P : Prompter) (suggestedPowers : Z) :
  (forall p : Z,
      number P "powers" (validate_powers suggestedPowers) = Some p ->
      (p < suggestedPowers ->
       askPowersOftau P suggestedPowers = Exits GENERIC_DATA_INPUT)
      /\ (suggestedPowers <= p ->
          askPowersOftau P suggestedPowers =
          Returns {| PowersOftau.powers := Some p |}))
  /\ (forall (r : PowersOftau.t) (p : Z),
        askPowersOftau P suggestedPowers = Returns r ->
        PowersOftau.powers r = Some p -> suggestedPowers <= p)
  /\ (number P "powers" (validate_powers suggestedPowers) = None ->
      askPowersOftau P suggestedPowers = Returns {| PowersOftau.powers := None |}).
Proof.
  unfold Prompts.askPowersOftau. cbv zeta.
  destruct (number P "powers" (validate_powers suggestedPowers)) as [q|]; simpl.
  - destruct (q <? suggestedPowers) eqn:E;
      rewrite ?Z.ltb_lt, ?Z.ltb_ge in E; simpl.
    + split; [|split]; try discriminate.
      intros p [= <-]. split; [reflexivity | lia].
    + split; [|split]; try discriminate.
      * intros p [= <-]. split; [lia | reflexivity].
      * intros r p [= <-]. simpl. intros [= <-]. exact E.
  - split; [|split]; try discriminate; try reflexivity.
    intros r p [= <-]. discriminate.
Qed.

End PowersOftau.

Section LocalSelection.

Variable theme_red : string -> string.
Variable symbols_error : string.
Variable extractPoTFromFilename : string -> option Z.

Local Abbreviation ptau_choices := (Prompts.ptau_choices extractPoTFromFilename).
Local Abbreviation eligible := (Prompts.eligible extractPoTFromFilename).
Local Abbreviation validate_ptau :=
  (Prompts.validate_ptau theme_red symbols_error extractPoTFromFilename).
Local Abbreviation askForPtauSelectionFromLocalDir :=
  (Prompts.askForPtauSelectionFromLocalDir theme_red symbols_error
     extractPoTFromFilename).

Lemma dirent_choices_values (dirents : list string) :
  map choice_value (map (fun name => mkChoice name None name) dirents) = dirents.
Proof.
  rewrite map_map. apply map_id.
Qed.

(** What a selection from a directory returns, for the two functions. *)
Lemma local_selection_returns (dirents : list string) (evs : list (event nat))
    (name : string) :
  answer_select (map (fun name => mkChoice name None name) dirents)
    (fun _ => Valid) evs = Some name ->
  In name dirents.
Proof.
  intros E. apply answer_select_listed in E. destruct E as [E _].
  now rewrite dirent_choices_values in E.
Qed.

(** X10: the circuit and the pre-computed zkey are selected among the
    entries of their directory, all of them offered in the order of the
    directory: what is returned is the name of an entry, the entry that the
    operator submitted; an empty directory ends the process with
    [GENERIC_CIRCUIT_SELECTION] whatever the operator does. *)
Theorem local_selection_returns_an_entry (op : Operator) (dirents : list string) :
  (forall r, Prompts.askForCircuitSelectionFromLocalDir (scripted op) dirents = Returns r ->
             exists name, r = Some name /\ In name dirents /\ name <> "")
  /\ (forall r, Prompts.askForZkeySelectionFromLocalDir (scripted op) dirents = Returns r ->
                exists name, r = Some name /\ In name dirents /\ name <> "")
  /\ (forall now i rest name,
        nth_error dirents i = Some name -> name <> "" ->
        (highlights op "circuit" = Submit now i :: rest ->
         Prompts.askForCircuitSelectionFromLocalDir (scripted op) dirents =
         Returns (Some name))
        /\ (highlights op "zkey" = Submit now i :: rest ->
            Prompts.askForZkeySelectionFromLocalDir (scripted op) dirents =
            Returns (Some name)))
  /\ Prompts.askForCircuitSelectionFromLocalDir (scripted op) [] =
     Exits GENERIC_CIRCUIT_SELECTION
  /\ Prompts.askForZkeySelectionFromLocalDir (scripted op) [] =
     Exits GENERIC_CIRCUIT_SELECTION.
Proof.
  assert (R : forall question r,
             (let picked := answer_select
                              (map (fun name => mkChoice name None name) dirents)
                              (fun _ => Valid) (highlights op question) in
              (if negb (JS.truthy_string picked)
               then showError GENERIC_CIRCUIT_SELECTION true else Returns tt) ;;;
              Returns picked) = Returns r ->
             exists name, r = Some name /\ In name dirents /\ name <> "").
  { intros question r. cbv zeta.
    destruct (answer_select _ _ (highlights op question)) as [name|] eqn:E;
      [|discriminate].
    destruct (JS.truthy_string (Some name)) eqn:T; [|discriminate].
    simpl. intros [= <-]. exists name. split; [reflexivity|]. split.
    - eapply local_selection_returns; eauto.
    - now apply truthy_string_Some. }
  split; [intros r; apply (R "circuit")|].
  split; [intros r; apply (R "zkey")|].
  split.
  { intros now i rest name N Nn.
    assert (C : nth_error (map (fun name => mkChoice name None name) dirents) i =
                Some (mkChoice name None name)).
    { now rewrite nth_error_map, N. }
    apply truthy_string_Some in Nn.
    split; intros H.
    - unfold Prompts.askForCircuitSelectionFromLocalDir. cbv zeta. simpl select.
      rewrite H, (answer_select_pick _ _ now i rest _ C eq_refl). simpl choice_value.
      now rewrite Nn.
    - unfold Prompts.askForZkeySelectionFromLocalDir. cbv zeta. simpl select.
      rewrite H, (answer_select_pick _ _ now i rest _ C eq_refl). simpl choice_value.
      now rewrite Nn. }
  split.
  - unfold Prompts.askForCircuitSelectionFromLocalDir. cbv zeta. simpl select.
    simpl map. now rewrite answer_select_nil.
  - unfold Prompts.askForZkeySelectionFromLocalDir. cbv zeta. simpl select.
    simpl map. now rewrite answer_select_nil.
Qed.

(** X11: the Powers of Tau file that is returned is an entry of the
    directory whose power reaches the suggested one; and since only such
    entries are listed the hook of the question rejects none of them: the
    selection is the same as without the hook. *)
Theorem selected_ptau_is_eligible (op : Operator) (ptausDirents : list string)
    (suggestedPowers : Z) :
  (forall r,
      askForPtauSelectionFromLocalDir (scripted op) ptausDirents suggestedPowers =
      Returns r ->
      exists name powers,
        r = Some name /\ In name ptausDirents /\
        extractPoTFromFilename name = Some powers /\ suggestedPowers <= powers)
  /\ (forall evs : list (event nat),
        answer_select (ptau_choices ptausDirents suggestedPowers)
          (validate_ptau suggestedPowers) evs =
        answer_select (ptau_choices ptausDirents suggestedPowers)
          (fun _ => Valid) evs).
Proof.
  split.
  - intros r. unfold Prompts.askForPtauSelectionFromLocalDir. cbv zeta.
    simpl select.
    destruct (answer_select _ _ (highlights op "ptau")) as [name|] eqn:E;
      [|discriminate].
    destruct (JS.truthy_string (Some name)); [|discriminate].
    simpl. intros [= <-].
    apply answer_select_listed in E. destruct E as [E _].
    rewrite ptau_choices_values, filter_In, eligible_spec in E.
    destruct E as (I & powers & Ep & Le). now exists name, powers.
  - intros evs. apply answer_select_same_validity. intros c I.
    rewrite (validate_ptau_listed theme_red symbols_error extractPoTFromFilename
               ptausDirents suggestedPowers (choice_value c)); [reflexivity|].
    now apply in_map.
Qed.

(** X12: raising the suggested powers only removes choices: the list for a
    higher threshold is the list for a lower one filtered again; the list
    of two directories put together is the two lists put together; and a
    file whose power is [NaN] is never listed. *)
Theorem raising_suggested_powers_only_removes_choices
    (ptausDirents more : list string) (k1 k2 : Z) :
  (k1 <= k2 ->
   map choice_value (ptau_choices ptausDirents k2) =
   filter (eligible k2) (map choice_value (ptau_choices ptausDirents k1))
   /\ incl (ptau_choices ptausDirents k2) (ptau_choices ptausDirents k1)
   /\ (length (ptau_choices ptausDirents k2) <= length (ptau_choices ptausDirents k1))%nat)
  /\ ptau_choices (ptausDirents ++ more)%list k1 =
     (ptau_choices ptausDirents k1 ++ ptau_choices more k1)%list
  /\ (forall name, extractPoTFromFilename name = None ->
                   ~ In name (map choice_value (ptau_choices ptausDirents k1))).
Proof.
  split; [|split].
  - intros Le.
    assert (F : filter (eligible k2) ptausDirents =
                filter (eligible k2) (filter (eligible k1) ptausDirents)).
    { induction ptausDirents as [|name rest IH]; [reflexivity|]. simpl.
      destruct (eligible k2 name) eqn:E2.
      - assert (E1 : eligible k1 name = true).
        { apply eligible_spec in E2. destruct E2 as (p & Hp & L).
          apply eligible_spec. exists p. split; [exact Hp | lia]. }
        rewrite E1. simpl. now rewrite E2, IH.
      - destruct (eligible k1 name); simpl; [rewrite E2|]; exact IH. }
    split; [|split].
    + now rewrite !ptau_choices_values.
    + rewrite !ptau_choices_filter. intros c. rewrite !in_map_iff.
      intros (name & <- & I). exists name. split; [reflexivity|].
      rewrite F in I. now apply filter_In in I.
    + rewrite !ptau_choices_filter, !length_map, F. apply filter_length_le.
  - now rewrite !ptau_choices_filter, filter_app, map_app.
  - intros name N. rewrite ptau_choices_values, filter_In, eligible_spec.
    intros (_ & p & Hp & _). congruence.
Qed.

End LocalSelection.

Section DocumentSelection.

Variable theme_magenta : string -> string.

Local Abbreviation ceremony_choice := (Prompts.ceremony_choice theme_magenta).
Local Abbreviation ceremony_choices := (Prompts.ceremony_choices theme_magenta).
Local Abbreviation askForCeremonySelection :=
  (Prompts.askForCeremonySelection theme_magenta).
Local Abbreviation circuit_choice := (Prompts.circuit_choice theme_magenta).
Local Abbreviation askForCircuitSelectionFromFirebase :=
  (Prompts.askForCircuitSelectionFromFirebase theme_magenta).

Lemma ceremony_choices_values (Date_now : nat -> Z) (k : nat)
    (docs : list FirebaseDocumentInfo.t) :
  map choice_value (ceremony_choices Date_now k docs) = docs.
Proof.
  revert k. induction docs as [|doc rest IH]; intros k; simpl;
    [reflexivity | now rewrite IH].
Qed.

Lemma ceremony_choices_titles (Date_now : nat -> Z) (k : nat)
    (docs : list FirebaseDocumentInfo.t) :
  map choice_title (ceremony_choices Date_now k docs) =
  map (fun doc => CeremonyDocument.title (FirebaseDocumentInfo.data doc)) docs.
Proof.
  revert k. induction docs as [|doc rest IH]; intros k; simpl;
    [reflexivity | now rewrite IH].
Qed.

(** X13: the ceremony that is returned is one of the opened ceremonies,
    whole, as it was given: the list offers every document once, in order,
    under its title, and the selection returns the document of the
    submitted entry.  Without an opened ceremony the process ends with
    [GENERIC_CEREMONY_SELECTION]. *)
Theorem selected_ceremony_is_an_opened_document (op : Operator)
    (Date_now : nat -> Z) (openedCeremoniesDocs : list FirebaseDocumentInfo.t) :
  (forall r,
      askForCeremonySelection (scripted op) Date_now openedCeremoniesDocs = Returns r ->
      exists doc, r = Some doc /\ In doc openedCeremoniesDocs)
  /\ (forall now i rest doc,
        highlights op "ceremony" = Submit now i :: rest ->
        nth_error openedCeremoniesDocs i = Some doc ->
        askForCeremonySelection (scripted op) Date_now openedCeremoniesDocs =
        Returns (Some doc))
  /\ map choice_value (ceremony_choices Date_now 0 openedCeremoniesDocs) =
     openedCeremoniesDocs
  /\ map choice_title (ceremony_choices Date_now 0 openedCeremoniesDocs) =
     map (fun doc => CeremonyDocument.title (FirebaseDocumentInfo.data doc))
         openedCeremoniesDocs
  /\ askForCeremonySelection (scripted op) Date_now [] =
     Exits GENERIC_CEREMONY_SELECTION.
Proof.
  split; [|split; [|split; [|split]]].
  - intros r. unfold Prompts.askForCeremonySelection. cbv zeta. simpl select.
    destruct (answer_select _ _ (highlights op "ceremony")) as [doc|] eqn:E;
      [|discriminate].
    simpl. intros [= <-]. exists doc. split; [reflexivity|].
    apply answer_select_listed in E. destruct E as [E _].
    now rewrite ceremony_choices_values in E.
  - intros now i rest doc H N.
    unfold Prompts.askForCeremonySelection. cbv zeta. simpl select. rewrite H.
    rewrite (answer_select_pick _ _ now i rest
               (ceremony_choice (Date_now i) doc)); [reflexivity| |reflexivity].
    rewrite (ceremony_choices_nth theme_magenta Date_now openedCeremoniesDocs 0 i).
    now rewrite N.
  - apply ceremony_choices_values.
  - apply ceremony_choices_titles.
  - unfold Prompts.askForCeremonySelection. cbv zeta. simpl select.
    simpl Prompts.ceremony_choices. now rewrite answer_select_nil.
Qed.

(** X14: the circuit that is returned is one of the circuits of the
    ceremony, whole: every document is offered once, in order, under its
    name, and the selection returns the document of the submitted entry.
    Without a circuit the process ends with [GENERIC_CIRCUIT_SELECTION]. *)
Theorem selected_circuit_is_a_ceremony_circuit (op : Operator)
    (circuitsDocs : list CircuitDocumentInfo.t) :
  (forall r,
      askForCircuitSelectionFromFirebase (scripted op) circuitsDocs = Returns r ->
      exists doc, r = Some doc /\ In doc circuitsDocs)
  /\ (forall now i rest doc,
        highlights op "circuit" = Submit now i :: rest ->
        nth_error circuitsDocs i = Some doc ->
        askForCircuitSelectionFromFirebase (scripted op) circuitsDocs =
        Returns (Some doc))
  /\ map choice_value (map circuit_choice circuitsDocs) = circuitsDocs
  /\ map choice_title (map circuit_choice circuitsDocs) =
     map (fun doc => CircuitDocument.name (CircuitDocumentInfo.data doc)) circuitsDocs
  /\ askForCircuitSelectionFromFirebase (scripted op) [] =
     Exits GENERIC_CIRCUIT_SELECTION.
Proof.
  assert (V : map choice_value (map circuit_choice circuitsDocs) = circuitsDocs).
  { rewrite map_map. apply map_id. }
  split; [|split; [|split; [|split]]].
  - intros r. unfold Prompts.askForCircuitSelectionFromFirebase. cbv zeta.
    simpl select.
    destruct (answer_select _ _ (highlights op "circuit")) as [doc|] eqn:E;
      [|discriminate].
    simpl. intros [= <-]. exists doc. split; [reflexivity|].
    apply answer_select_listed in E. destruct E as [E _].
    now rewrite V in E.
  - intros now i rest doc H N.
    unfold Prompts.askForCircuitSelectionFromFirebase. cbv zeta. simpl select.
    rewrite H.
    rewrite (answer_select_pick _ _ now i rest (circuit_choice doc));
      [reflexivity| |reflexivity].
    now rewrite nth_error_map, N.
  - exact V.
  - now rewrite map_map.
  - unfold Prompts.askForCircuitSelectionFromFirebase. cbv zeta. simpl select.
    simpl map. now rewrite answer_select_nil.
Qed.

End DocumentSelection.

(** X15: the figure of days counts the days begun.  It is never negative;
    it is zero only at the very instant of the closing, which is labelled
    as gone; one millisecond away it is already one; it is the same at
    equal distances before and after the closing; and it does not decrease
    with the distance. *)
Theorem days_left_counts_begun_days (now endDate : Z) :
  0 <= Prompts.daysLeft now endDate
  /\ (Prompts.daysLeft now endDate = 0 <-> now = endDate)
  /\ (now <> endDate -> 1 <= Prompts.daysLeft now endDate)
  /\ Prompts.days_label now now = "days gone since closing"
  /\ Prompts.daysLeft now endDate = Prompts.daysLeft endDate now
  /\ (forall now' endDate',
        Z.abs (now - endDate) <= Z.abs (now' - endDate') ->
        Prompts.daysLeft now endDate <= Prompts.daysLeft now' endDate').
Proof.
  unfold Prompts.daysLeft.
  assert (D : 0 < Prompts.MS_PER_DAY) by reflexivity.
  pose proof (ceil_div_bounds (Z.abs (now - endDate)) Prompts.MS_PER_DAY D) as B.
  split; [nia|]. split; [|split; [|split; [|split]]].
  - split; [nia|]. intros ->. now rewrite Z.sub_diag.
  - nia.
  - unfold Prompts.days_label. now rewrite Z.sub_diag.
  - f_equal. lia.
  - intros now' endDate' Le.
    pose proof (ceil_div_bounds (Z.abs (now' - endDate')) Prompts.MS_PER_DAY D) as B'.
    nia.
Qed.

Section EntropyOrBeacon.

Variable theme_red : string -> string.
Variable symbols_error : string.

Local Abbreviation validate_entropyOrBeacon :=
  (Prompts.validate_entropyOrBeacon theme_red symbols_error).
Local Abbreviation askForEntropyOrBeacon :=
  (Prompts.askForEntropyOrBeacon theme_red symbols_error).



End EntropyOrBeacon.

Section Errors.

Variable theme_red : string -> string.
Variable theme_magenta : string -> string.
Variable symbols_error : string.
Variable extractPrefix : string -> string.
Variable extractPoTFromFilename : string -> option Z.

(** X17: every prompt has one error, so that the error tells the kind of
    prompt that failed: the builders, the powers and the entropy end the
    process with [GENERIC_DATA_INPUT] only, the selections of circuits,
    zkeys and Powers of Tau files with [GENERIC_CIRCUIT_SELECTION] only,
    and the selection of a ceremony with [GENERIC_CEREMONY_SELECTION]
    only. *)
Theorem each_prompt_has_one_error (P : Prompter) (err : GENERIC_ERRORS) :
  (forall ceremoniesPrefixes,
      Prompts.askCeremonyInputData theme_red symbols_error extractPrefix P
        ceremoniesPrefixes = Exits err -> err = GENERIC_DATA_INPUT)
  /\ (forall timeoutMechanismType,
        Prompts.askCircuitInputData theme_red symbols_error P timeoutMechanismType =
        Exits err -> err = GENERIC_DATA_INPUT)
  /\ (forall suggestedPowers,
        Prompts.askPowersOftau theme_red symbols_error P suggestedPowers = Exits err ->
        err = GENERIC_DATA_INPUT)
  /\ (forall askEntropy,
        Prompts.askForEntropyOrBeacon theme_red symbols_error P askEntropy = Exits err ->
        err = GENERIC_DATA_INPUT)
  /\ (forall circuitsDirents,
        Prompts.askForCircuitSelectionFromLocalDir P circuitsDirents = Exits err ->
        err = GENERIC_CIRCUIT_SELECTION)
  /\ (forall zkeysDirents,
        Prompts.askForZkeySelectionFromLocalDir P zkeysDirents = Exits err ->
        err = GENERIC_CIRCUIT_SELECTION)
  /\ (forall ptausDirents suggestedPowers,
        Prompts.askForPtauSelectionFromLocalDir theme_red symbols_error
          extractPoTFromFilename P ptausDirents suggestedPowers = Exits err ->
        err = GENERIC_CIRCUIT_SELECTION)
  /\ (forall circuitsDocs,
        Prompts.askForCircuitSelectionFromFirebase theme_magenta P circuitsDocs =
        Exits err -> err = GENERIC_CIRCUIT_SELECTION)
  /\ (forall Date_now openedCeremoniesDocs,
        Prompts.askForCeremonySelection theme_magenta P Date_now openedCeremoniesDocs =
        Exits err -> err = GENERIC_CEREMONY_SELECTION).
Proof.
  repeat split; intros *;
    try apply askCeremonyInputData_exits; try apply askCircuitInputData_exits;
    unfold Prompts.askPowersOftau, Prompts.askForEntropyOrBeacon,
      Prompts.askForCircuitSelectionFromLocalDir,
      Prompts.askForZkeySelectionFromLocalDir,
      Prompts.askForPtauSelectionFromLocalDir,
      Prompts.askForCircuitSelectionFromFirebase,
      Prompts.askForCeremonySelection, showError, bind; cbv zeta;
    match goal with
    | |- context [if ?b then _ else _] => destruct b
    end; congruence.
Qed.

(** X18: the checks of the ceremony builder after its questions test that
    the answers are there, and the sign of the penalty; the dates are not
    compared again.  Answers that reach the builder without the hooks of
    the questions are returned as they are, whatever the order of the two
    dates and of the clock. *)
Theorem dates_are_not_checked_again (P : Prompter)
    (ceremoniesPrefixes : list string) (t d : string) (s e : Z) :
  text P "title"
    (Prompts.validate_title theme_red symbols_error extractPrefix ceremoniesPrefixes) =
  Some t ->
  text P "description" (Prompts.validate_description theme_red symbols_error) = Some d ->
  date P "startDate" (Prompts.validate_startDate theme_red symbols_error) = Some s ->
  date P "endDate" (Prompts.validate_endDate theme_red symbols_error (Some s)) = Some e ->
  t <> "" -> d <> "" ->
  JS.lt (number P "penalty" (Prompts.validate_penalty theme_red symbols_error)) (Some 0)
  = false ->
  exists r,
    Prompts.askCeremonyInputData theme_red symbols_error extractPrefix P
      ceremoniesPrefixes = Returns r
    /\ CeremonyInputData.title r = Some t
    /\ CeremonyInputData.startDate r = Some s
    /\ CeremonyInputData.endDate r = Some e.
Proof.
  intros Ht Hd Hs He Nt Nd Hp.
  rewrite (askCeremonyInputData_answers theme_red symbols_error extractPrefix
             P ceremoniesPrefixes t d s e Ht Hd Hs He Nt Nd), Hp.
  eexists. repeat split.
Qed.

End Errors.

(** *** The further properties at work *)




Lemma dates_are_not_checked_again_witness :
  exists r,
    Prompts.askCeremonyInputData plain "x" extractPrefix_model
      {| text := fun name _ => Some "My Ceremony";
         date := fun name _ => if String.eqb name "startDate" then Some 300 else Some 200;
         number := fun _ _ => Some 0;
         toggle := fun _ => Some true;
         select := fun _ _ _ _ => None |}
      ["another-ceremony"] = Returns r
    /\ CeremonyInputData.title r = Some "My Ceremony"
    /\ CeremonyInputData.startDate r = Some 300
    /\ CeremonyInputData.endDate r = Some 200.
Proof.
  apply (dates_are_not_checked_again plain "x" extractPrefix_model
           {| text := fun name _ => Some "My Ceremony";
              date := fun name _ => if String.eqb name "startDate" then Some 300 else Some 200;
              number := fun _ _ => Some 0;
              toggle := fun _ => Some true;
              select := fun _ _ _ _ => None |}
           ["another-ceremony"] "My Ceremony" "My Ceremony" 300 200);
    try reflexivity; discriminate.
Defined.
